(** * Cover letter generator: the pipeline of [app.py]

    A shallow embedding of the non-presentational logic of [app.py]:
    the LinkedIn URL validator, the credential lookup and profile
    normalisation of [scrape_profile], and the two stateful blocks of
    [main] (the editor tab and the "Generate Cover Letter" handler).

    Python strings are modelled by [string]; every character stands for
    one code point below 256. *)

From Stdlib Require Import String Ascii List Bool Arith ZArith.
From Stdlib Require Import Numbers.DecimalString.
Import ListNotations.

Set Warnings "-register-all".

Local Open Scope list_scope.
Local Open Scope string_scope.

(* ================================================================== *)
(** * Strings *)

Module Str.

(** [not s] for a [str]: the empty string is the only falsy one. *)
Definition is_empty (s : string) : bool :=
  match s with
  | EmptyString => true
  | String _ _ => false
  end.

(** [s.startswith(p)], giving back what follows the prefix. *)
Fixpoint strip_prefix (p s : string) : option string :=
  match p with
  | EmptyString => Some s
  | String a p' =>
      match s with
      | EmptyString => None
      | String b s' => if Ascii.eqb a b then strip_prefix p' s' else None
      end
  end.

(** [needle in hay]. *)
Fixpoint contains (needle hay : string) : bool :=
  match strip_prefix needle hay with
  | Some _ => true
  | None =>
      match hay with
      | EmptyString => false
      | String _ hay' => contains needle hay'
      end
  end.

(** [s.rstrip('/')]. *)
Fixpoint rstrip_slash (s : string) : string :=
  match s with
  | EmptyString => EmptyString
  | String c t =>
      match rstrip_slash t with
      | EmptyString => if Ascii.eqb c "/" then EmptyString else String c EmptyString
      | t' => String c t'
      end
  end.

(** [s.split('/')[-1]]: what follows the last slash, or all of [s]. *)
Fixpoint last_segment (s : string) : string :=
  match s with
  | EmptyString => EmptyString
  | String c t =>
      if contains "/" t then last_segment t
      else if Ascii.eqb c "/" then t
      else String c t
  end.

End Str.

(* ================================================================== *)
(** * Regular expressions, as [re.match] uses them *)

Module Re.

(** The fragment of the pattern language that the two patterns of
    [validate_linkedin_url] are written in. *)
Inductive regex : Type :=
| Lit (s : string)                 (* a run of literal characters *)
| Cat (r1 r2 : regex)              (* r1 r2 *)
| Opt (r : regex)                  (* r? , greedy *)
| Many1 (cls : ascii -> bool).     (* [cls]+ , greedy *)

(** [\d] on code points below 256: the ten ASCII digits. *)
Definition digit (c : ascii) : bool :=
  let n := nat_of_ascii c in ((48 <=? n) && (n <=? 57))%nat.

(** [\w] on code points below 256: the characters for which
    [str.isalnum] holds, and the underscore. *)
Definition word (c : ascii) : bool :=
  let n := nat_of_ascii c in
  (digit c
  || ((65 <=? n) && (n <=? 90))
  || ((97 <=? n) && (n <=? 122))
  || (n =? 95)
  || (n =? 170) || (n =? 181) || (n =? 186)
  || (n =? 178) || (n =? 179) || (n =? 185)
  || ((188 <=? n) && (n <=? 190))
  || ((192 <=? n) && (n <=? 214))
  || ((216 <=? n) && (n <=? 246))
  || ((248 <=? n) && (n <=? 255)))%nat.

(** [[\w\-]] *)
Definition word_or_dash (c : ascii) : bool :=
  word c || Ascii.eqb c "-".

(** One or more characters of a class, longest run first, handing every
    possible rest to the continuation. *)
Fixpoint many1 (cls : ascii -> bool) (s : string) (k : string -> bool) : bool :=
  match s with
  | EmptyString => false
  | String c t => if cls c then many1 cls t k || k t else false
  end.

(** The backtracking matcher: [match_here r s k] tries the ways [r] can match
    at the start of [s] and asks [k] about the rest. *)
Fixpoint match_here (r : regex) (s : string) (k : string -> bool) : bool :=
  match r with
  | Lit p =>
      match Str.strip_prefix p s with
      | Some t => k t
      | None => false
      end
  | Cat r1 r2 => match_here r1 s (fun t => match_here r2 t k)
  | Opt r1 => match_here r1 s k || k s
  | Many1 cls => many1 cls s k
  end.

(** [bool(re.match(pattern, s))]: a match anchored at the start of [s]
    and free at its end. *)
Definition re_match (pattern : regex) (s : string) : bool :=
  match_here pattern s (fun _ => true).

(** The strings a pattern denotes. *)
Inductive Lang : regex -> string -> Prop :=
| LLit s : Lang (Lit s) s
| LCat r1 r2 s1 s2 : Lang r1 s1 -> Lang r2 s2 -> Lang (Cat r1 r2) (s1 ++ s2)
| LOptNone r : Lang (Opt r) EmptyString
| LOptSome r s : Lang r s -> Lang (Opt r) s
| LOne cls c : cls c = true -> Lang (Many1 cls) (String c EmptyString)
| LMore cls c s : cls c = true -> Lang (Many1 cls) s -> Lang (Many1 cls) (String c s).

End Re.

(* ================================================================== *)
(** * [validate_linkedin_url] *)

Import Re.

(** [r'https?://(www\.)?linkedin\.com/jobs/view/\d+'] *)
Definition job_pattern : regex :=
  Cat (Lit "http") (Cat (Opt (Lit "s")) (Cat (Lit "://")
    (Cat (Opt (Lit "www.")) (Cat (Lit "linkedin.com/jobs/view/") (Many1 digit))))).

(** [r'https?://(www\.)?linkedin\.com/in/[\w\-]+'] *)
Definition profile_pattern : regex :=
  Cat (Lit "http") (Cat (Opt (Lit "s")) (Cat (Lit "://")
    (Cat (Opt (Lit "www.")) (Cat (Lit "linkedin.com/in/") (Many1 word_or_dash))))).

Definition validate_linkedin_url (url : string) (type : string) : bool :=
  if Str.is_empty url then false
  else
    let pattern := if String.eqb type "job" then job_pattern else profile_pattern in
    re_match pattern url.

(* ================================================================== *)
(** * Python values and exceptions *)

(** The values that flow through the pipeline: what the profile API
    returns (JSON-like data), widget values and the generated letter. *)
Inductive pyval : Type :=
| PyNone
| PyBool (b : bool)
| PyInt (z : Z)
| PyStr (s : string)
| PyList (l : list pyval)
| PyDict (d : list (string * pyval)).

(** A [dict] with string keys, in insertion order. *)
Definition dict : Type := list (string * pyval).

Inductive exn_class : Type :=
| ValueError | KeyError | TypeError | AttributeError | Exception_
| OtherError (class_name : string).

(** An exception (every class here derives from [Exception]);
    [exn_msg e] is [str(e)]. *)
Record exn : Type := Exn { exn_cls : exn_class; exn_msg : string }.

Module Py.

Fixpoint lookup (k : string) (d : dict) : option pyval :=
  match d with
  | [] => None
  | (k', v) :: d' => if String.eqb k k' then Some v else lookup k d'
  end.

(** [d[k] = v]: replaces the value in place, or adds the key last. *)
Fixpoint store (k : string) (v : pyval) (d : dict) : dict :=
  match d with
  | [] => [(k, v)]
  | (k', v') :: d' =>
      if String.eqb k k' then (k', v) :: d' else (k', v') :: store k v d'
  end.

Definition type_name (v : pyval) : string :=
  match v with
  | PyNone => "NoneType"
  | PyBool _ => "bool"
  | PyInt _ => "int"
  | PyStr _ => "str"
  | PyList _ => "list"
  | PyDict _ => "dict"
  end.

(** [str(KeyError(k))] is [repr(k)]; the keys used here are plain
    identifiers, whose [repr] is the key between single quotes. *)
Definition key_error (k : string) : exn :=
  Exn KeyError ("'" ++ k ++ "'").

(** [v[k]] with a string key. *)
Definition subscript (v : pyval) (k : string) : exn + pyval :=
  match v with
  | PyDict d =>
      match lookup k d with
      | Some x => inr x
      | None => inl (key_error k)
      end
  | PyStr _ => inl (Exn TypeError "string indices must be integers, not 'str'")
  | PyList _ => inl (Exn TypeError "list indices must be integers or slices, not str")
  | _ => inl (Exn TypeError ("'" ++ type_name v ++ "' object is not subscriptable"))
  end.

(** [v.get(k, default)]. *)
Definition get (v : pyval) (k : string) (default : pyval) : exn + pyval :=
  match v with
  | PyDict d =>
      match lookup k d with
      | Some x => inr x
      | None => inr default
      end
  | _ => inl (Exn AttributeError ("'" ++ type_name v ++ "' object has no attribute 'get'"))
  end.

(** [v[k] = x] with a string key. *)
Definition set_item (v : pyval) (k : string) (x : pyval) : exn + pyval :=
  match v with
  | PyDict d => inr (PyDict (store k x d))
  | PyList _ => inl (Exn TypeError "list indices must be integers or slices, not str")
  | _ => inl (Exn TypeError ("'" ++ type_name v ++ "' object does not support item assignment"))
  end.

Fixpoint chars (s : string) : list pyval :=
  match s with
  | EmptyString => []
  | String c t => PyStr (String c EmptyString) :: chars t
  end.

(** The items [for x in v] goes through. *)
Definition iterate (v : pyval) : exn + list pyval :=
  match v with
  | PyList l => inr l
  | PyStr s => inr (chars s)
  | PyDict d => inr (map (fun kv => PyStr (fst kv)) d)
  | _ => inl (Exn TypeError ("'" ++ type_name v ++ "' object is not iterable"))
  end.

Definition string_of_Z (z : Z) : string :=
  NilEmpty.string_of_int (Z.to_int z).

(** [str(v)], which is also what an f-string field and [str.format]
    put in the text.  [repr] gives the text of a list or a dict. *)
Definition str (repr : pyval -> string) (v : pyval) : string :=
  match v with
  | PyNone => "None"
  | PyBool true => "True"
  | PyBool false => "False"
  | PyInt z => string_of_Z z
  | PyStr s => s
  | _ => repr v
  end.

(** [x != text] where [x] is a [str]: a [str] equals only a [str]. *)
Definition str_differs (x : string) (text : pyval) : bool :=
  match text with
  | PyStr t => negb (String.eqb x t)
  | _ => true
  end.

End Py.

(** Modelled from the spec: the class [UserPersona] of
    [src/cover_letter/user_persona.py] is not part of the sources at
    hand.  Its constructor is called with five positional arguments,
    the fields of the spec's Persona; it is taken to keep each argument
    as it is given. *)
Record UserPersona : Type := mkUserPersona {
  name : pyval;
  education : pyval;
  experience : pyval;
  skills : pyval;
  certifications : pyval
}.

(* ================================================================== *)
(** * Collaborators and effects *)

(** The object [Linkedin(email, pwd)] returns. *)
Record Api : Type := mkApi {
  get_profile : string -> exn + pyval;
  get_profile_skills : string -> exn + pyval
}.

(** What [app.py] calls and does not define: the secrets file, the
    process environment, the LinkedIn client, the job-posting scraper,
    the generation backend and the editor widget. *)
Record Env : Type := mkEnv {
  secrets : dict;                                   (* st.secrets *)
  getenv : string -> option string;                 (* os.getenv *)
  Linkedin : pyval -> pyval -> exn + Api;
  scrape_job_posting : string -> exn + pyval;
  query : UserPersona -> pyval -> string -> exn + pyval;
  create_editing_interface : pyval -> exn + string; (* CoverLetterEditor *)
  py_repr : pyval -> string                         (* repr of a list or dict *)
}.

(** What a run does that can be seen from outside, in order. *)
Inductive event : Type :=
| ReadSecret (key : string)
| GetEnv (key : string)
| CallLinkedin (email pwd : pyval)
| CallGetProfile (profile_id : string)
| CallGetProfileSkills (profile_id : string)
| CallScrapeJobPosting (url : string)
| CallQuery (user : UserPersona) (job_posting : pyval) (template : string)
| CallEditor (text : pyval)
| StError (msg : string)
| StInfo (msg : string)
| ShowSuccess (msg : string)
| ShowLetter (text : string)
| ShowDownload (data : pyval) (key : option string)
| StRerun.

(** How a block of statements ends: with a value, with an exception, or
    by leaving [main] ([return], or the script stopped by [st.rerun]). *)
Inductive outcome (A : Type) : Type :=
| Val (a : A)
| Raise (e : exn)
| Halt.
Arguments Val {A} a.
Arguments Raise {A} e.
Arguments Halt {A}.

(** A run of a block from a given [st.session_state]. *)
Record run (A : Type) : Type := Run {
  out : outcome A;
  session : dict;
  trace : list event
}.
Arguments Run {A} out session trace.
Arguments out {A} r.
Arguments session {A} r.
Arguments trace {A} r.

Definition M (A : Type) : Type := dict -> run A.

Definition ret {A} (a : A) : M A := fun s => Run (Val a) s [].
Definition raise {A} (e : exn) : M A := fun s => Run (Raise e) s [].
Definition halt {A} : M A := fun s => Run Halt s [].
Definition emit (e : event) : M unit := fun s => Run (Val tt) s [e].
Definition lift {A} (r : exn + A) : M A :=
  match r with
  | inr a => ret a
  | inl e => raise e
  end.

Definition bind {A B} (m : M A) (f : A -> M B) : M B :=
  fun s =>
    let r := m s in
    match out r with
    | Val a =>
        let r' := f a (session r) in
        Run (out r') (session r') (trace r ++ trace r')
    | Raise e => Run (Raise e) (session r) (trace r)
    | Halt => Run Halt (session r) (trace r)
    end.

(** [try: body / except Exception as e: handler e]. What the body did
    before it raised stays done. *)
Definition try_except {A} (body : M A) (handler : exn -> M A) : M A :=
  fun s =>
    let r := body s in
    match out r with
    | Raise e =>
        let r' := handler e (session r) in
        Run (out r') (session r') (trace r ++ trace r')
    | _ => r
    end.

Definition get_session : M dict := fun s => Run (Val s) s [].
Definition set_session (k : string) (v : pyval) : M unit :=
  fun s => Run (Val tt) (Py.store k v s) [].

Declare Scope py_scope.
Delimit Scope py_scope with py.
Notation "x <- m ;; k" := (bind m (fun x => k))
  (at level 61, m at next level, right associativity) : py_scope.
Notation "m ;; k" := (bind m (fun _ => k))
  (at level 61, right associativity) : py_scope.
Local Open Scope py_scope.

(** A list comprehension whose element expression can raise. *)
Fixpoint comprehension {A B} (f : A -> exn + B) (l : list A) : exn + list B :=
  match l with
  | [] => inr []
  | x :: l' =>
      match f x with
      | inl e => inl e
      | inr y =>
          match comprehension f l' with
          | inl e => inl e
          | inr ys => inr (y :: ys)
          end
      end
  end.

(** Sequencing of expressions that can raise. *)
Definition and_then {A B} (r : exn + A) (f : A -> exn + B) : exn + B :=
  match r with
  | inl e => inl e
  | inr a => f a
  end.
Notation "x <~ r ;; k" := (and_then r (fun x => k))
  (at level 61, r at next level, right associativity) : py_scope.

(** The widget values [main] reads on one run of the script, under the
    names of the variables that hold them. *)
Module Form.

Record inputs : Type := mkInputs {
  job_url : string;
  profile_url : string;
  name : string;
  education_level : string;
  education_field : string;
  experience : string;
  skills : list string;
  certifications : list string;
  tab1_active : bool;           (* truth value of [tab1.active] *)
  generate_pressed : bool       (* st.button('Generate Cover Letter') *)
}.

End Form.

Definition inputs : Type := Form.inputs.

Definition missing_credentials : exn :=
  Exn ValueError "LinkedIn credentials not found in secrets or environment variables".

Definition scrape_prefix : string := "Failed to scrape LinkedIn profile: ".

Definition template_path : string := "src/prompts/cover_letter.txt".

Definition fallback_hint : string :=
  "Please use the manual input method or run the app locally for LinkedIn integration.".

(** [not v] for what [os.getenv] returns. *)
Definition env_falsy (v : option string) : bool :=
  match v with
  | Some s => Str.is_empty s
  | None => true
  end.

Definition env_value (v : option string) : pyval :=
  match v with
  | Some s => PyStr s
  | None => PyNone
  end.

(** [ 'cover_letter' in st.session_state and
      st.session_state.cover_letter is not None ] *)
Definition letter_ready (s : dict) : bool :=
  match Py.lookup "cover_letter" s with
  | Some PyNone => false
  | Some _ => true
  | None => false
  end.

(** The text of the stored letter, when there is one. *)
Definition current_text (s : dict) : option pyval :=
  match Py.lookup "cover_letter" s with
  | Some (PyDict d) => Py.lookup "text" d
  | _ => None
  end.

(** [st.download_button(data=..., key=...)].  Streamlit takes a text (or
    bytes, which the values here never are) for the data and raises for
    anything else. *)
Definition download_button (data : pyval) (key : option string) : M unit :=
  match data with
  | PyStr _ => emit (ShowDownload data key)
  | _ =>
      raise (Exn (OtherError "RuntimeError")
               ("Invalid binary data format: <class '" ++ Py.type_name data ++ "'>"))
  end.



(** ** Credential sources, as the design describes them *)

(** The secrets supply the credentials when both keys are there. *)
Definition from_secrets (sec : dict) : option (pyval * pyval) :=
  match Py.lookup "LINKEDIN_EMAIL" sec, Py.lookup "LINKEDIN_PASSWORD" sec with
  | Some email, Some pwd => Some (email, pwd)
  | _, _ => None
  end.

(** The environment supplies them when both variables are set and
    neither is empty. *)
Definition from_environment (ge : string -> option string) : option (pyval * pyval) :=
  match ge "LINKEDIN_EMAIL", ge "LINKEDIN_PASSWORD" with
  | Some email, Some pwd =>
      if Str.is_empty email || Str.is_empty pwd then None
      else Some (PyStr email, PyStr pwd)
  | _, _ => None
  end.

(** The first source, in the order given, that supplies both fields. *)
Fixpoint first_supplying (sources : list (option (pyval * pyval)))
  : option (pyval * pyval) :=
  match sources with
  | [] => None
  | Some c :: _ => Some c
  | None :: rest => first_supplying rest
  end.

Definition resolve_credentials (env : Env) : option (pyval * pyval) :=
  first_supplying [from_secrets (secrets env); from_environment (getenv env)].

Section Pipeline.

Variable env : Env.

Definition fmt (v : pyval) : string := Py.str (py_repr env) v.

(** ** [scrape_profile] *)

Definition read_secret (k : string) : M pyval :=
  emit (ReadSecret k) ;; lift (Py.subscript (PyDict (secrets env)) k).

Definition os_getenv (k : string) : M (option string) :=
  emit (GetEnv k) ;; ret (getenv env k).

(** The first [try]/[except] of [scrape_profile]. *)
Definition credentials : M (pyval * pyval) :=
  try_except
    (email <- read_secret "LINKEDIN_EMAIL" ;;
     pwd <- read_secret "LINKEDIN_PASSWORD" ;;
     ret (email, pwd))
    (fun _ =>
       email <- os_getenv "LINKEDIN_EMAIL" ;;
       pwd <- os_getenv "LINKEDIN_PASSWORD" ;;
       if env_falsy email || env_falsy pwd
       then raise missing_credentials
       else ret (env_value email, env_value pwd)).

Definition education_entry (edu : pyval) : exn + pyval :=
  school <~ Py.subscript edu "schoolName" ;;
  period <~ Py.subscript edu "timePeriod" ;;
  start <~ Py.subscript period "startDate" ;;
  year <~ Py.subscript start "year" ;;
  descr <~ Py.get edu "description" (PyStr "No description available") ;;
  inr (PyStr (fmt school ++ " (" ++ fmt year ++ ") - " ++ fmt descr)).

Definition experience_entry (exp : pyval) : exn + pyval :=
  title <~ Py.subscript exp "title" ;;
  company <~ Py.subscript exp "companyName" ;;
  descr <~ Py.get exp "description" (PyStr "No description available") ;;
  inr (PyStr (fmt title ++ " at " ++ fmt company ++ " - " ++ fmt descr)).

Definition certification_entry (cert : pyval) : exn + pyval :=
  cname <~ Py.subscript cert "name" ;;
  authority <~ Py.subscript cert "authority" ;;
  inr (PyStr (fmt cname ++ " from " ++ fmt authority)).

Definition skill_entry (skill : pyval) : exn + pyval :=
  Py.subscript skill "name".

(** [[f(x) for x in profile.get(key, [])]] *)
Definition entries_of (profile : pyval) (key : string) : exn + list pyval :=
  v <~ Py.get profile key (PyList []) ;; Py.iterate v.

(** The body of the second [try] of [scrape_profile]. *)
Definition fetch_and_normalize (email pwd : pyval) (profile_id : string)
  : M UserPersona :=
  emit (CallLinkedin email pwd) ;;
  api <- lift (Linkedin env email pwd) ;;
  emit (CallGetProfile profile_id) ;;
  profile <- lift (get_profile api profile_id) ;;
  first <- lift (Py.subscript profile "firstName") ;;
  last <- lift (Py.subscript profile "lastName") ;;
  edus <- lift (l <~ entries_of profile "education" ;;
                comprehension education_entry l) ;;
  exps <- lift (l <~ entries_of profile "experience" ;;
                comprehension experience_entry l) ;;
  certs <- lift (l <~ entries_of profile "certifications" ;;
                 comprehension certification_entry l) ;;
  emit (CallGetProfileSkills profile_id) ;;
  raw_skills <- lift (get_profile_skills api profile_id) ;;
  skls <- lift (l <~ Py.iterate raw_skills ;; comprehension skill_entry l) ;;
  ret (mkUserPersona (PyStr (fmt first ++ " " ++ fmt last))
         (PyList edus) (PyList exps) (PyList skls) (PyList certs)).

Definition scrape_profile (profile_id : string) : M UserPersona :=
  creds <- credentials ;;
  try_except
    (fetch_and_normalize (fst creds) (snd creds) profile_id)
    (fun e => raise (Exn Exception_ (scrape_prefix ++ exn_msg e))).

(** ** [main]: session state and the input tabs *)

(** Lines 153-156. *)
Definition init_session : M unit :=
  s <- get_session ;;
  (match Py.lookup "cover_letter" s with
   | None => set_session "cover_letter" PyNone
   | Some _ => ret tt
   end) ;;
  s <- get_session ;;
  match Py.lookup "editor_active" s with
  | None => set_session "editor_active" (PyBool false)
  | Some _ => ret tt
  end.

(** [st.session_state.cover_letter] *)
Definition stored_letter : M pyval :=
  s <- get_session ;;
  match Py.lookup "cover_letter" s with
  | Some v => ret v
  | None => raise (Exn AttributeError
                     "st.session_state has no attribute 'cover_letter'")
  end.

(** The feedback under the two URL fields of the first tab. *)
Definition url_feedback (i : inputs) : M unit :=
  (if negb (Str.is_empty (Form.job_url i)) && negb (validate_linkedin_url (Form.job_url i) "job")
   then emit (StError "Please enter a valid LinkedIn job posting URL")
   else ret tt) ;;
  if negb (Str.is_empty (Form.profile_url i))
     && negb (validate_linkedin_url (Form.profile_url i) "profile")
  then emit (StError "Please enter a valid LinkedIn profile URL")
  else ret tt.

(** "Display generated content if available", in an input tab. *)
Definition show_stored_letter (key : option string) : M unit :=
  s <- get_session ;;
  if letter_ready s then
    emit (ShowSuccess "Your cover letter is ready!") ;;
    letter <- stored_letter ;;
    text <- lift (Py.subscript letter "text") ;;
    emit (ShowLetter (fmt text)) ;;
    download_button text key
  else ret tt.

(** ** [main]: the editor tab (lines 261-286) *)

Definition editor_tab : M unit :=
  letter <- stored_letter ;;
  match letter with
  | PyNone => emit (StInfo "Generate a cover letter first to use the editor.")
  | _ =>
      text <- lift (Py.subscript letter "text") ;;
      emit (CallEditor text) ;;
      edited_text <- lift (create_editing_interface env text) ;;
      (if Py.str_differs edited_text text then
         letter' <- lift (Py.set_item letter "text" (PyStr edited_text)) ;;
         set_session "cover_letter" letter' ;;
         emit (ShowSuccess "Cover letter updated successfully!")
       else ret tt) ;;
      emit (ShowLetter edited_text) ;;
      emit (ShowDownload (PyStr edited_text) (Some "download_button0"))
  end.

(** ** [main]: the "Generate Cover Letter" handler (lines 289-340) *)

(** Lines 293-307: the persona, from the profile or from the form. *)
Definition build_user (i : inputs) : M UserPersona :=
  if Form.tab1_active i then
    if Str.is_empty (Form.job_url i) then
      emit (StError "Please enter a job posting URL") ;; halt
    else if Str.is_empty (Form.profile_url i) then
      emit (StError "Please enter your LinkedIn profile URL") ;; halt
    else
      scrape_profile (Str.last_segment (Str.rstrip_slash (Form.profile_url i)))
  else
    if Str.is_empty (Form.name i) || Str.is_empty (Form.experience i) then
      emit (StError "Please fill in all required fields") ;; halt
    else
      ret (mkUserPersona (PyStr (Form.name i))
             (PyStr (Form.education_level i ++ " in " ++ Form.education_field i))
             (PyStr (Form.experience i))
             (PyList (map PyStr (Form.skills i)))
             (PyList (map PyStr (Form.certifications i)))).

(** Lines 310-311. *)
Definition fetch_and_query (i : inputs) (user : UserPersona) : M pyval :=
  emit (CallScrapeJobPosting (Form.job_url i)) ;;
  job_posting <- lift (scrape_job_posting env (Form.job_url i)) ;;
  emit (CallQuery user job_posting template_path) ;;
  lift (query env user job_posting template_path).

(** Lines 314-336.  [st.rerun] stops the script, so nothing of [main]
    runs after it; the half-second sleep before it is not modelled. *)
Definition store_and_show (response : pyval) : M unit :=
  set_session "cover_letter" response ;;
  set_session "editor_active" (PyBool true) ;;
  emit (ShowSuccess "Your cover letter is ready!") ;;
  text <- lift (Py.subscript response "text") ;;
  emit (ShowLetter (fmt text)) ;;
  data <- lift (Py.subscript response "text") ;;
  download_button data (Some "download_button1") ;;
  emit StRerun ;; halt.

(** Lines 337-340. *)
Definition report (e : exn) : M unit :=
  emit (StError ("An error occurred: " ++ exn_msg e)) ;;
  if Str.contains "credentials not found" (exn_msg e)
  then emit (StInfo fallback_hint)
  else ret tt.

Definition generate (i : inputs) : M unit :=
  try_except
    (user <- build_user i ;;
     response <- fetch_and_query i user ;;
     store_and_show response)
    report.

(** One run of the script.  The session state is followed for the keys
    the script assigns; the entries that Streamlit keeps there for
    keyed widgets are not part of it. *)
Definition main (i : inputs) : M unit :=
  s0 <- get_session ;;
  let editor_tab_exists := letter_ready s0 in
  init_session ;;
  url_feedback i ;;
  show_stored_letter (Some "download_button2") ;;
  show_stored_letter None ;;
  (if editor_tab_exists then editor_tab else ret tt) ;;
  if Form.generate_pressed i then generate i else ret tt.

End Pipeline.

(* ================================================================== *)
(** * The secrets file and the settings tab *)

(** The file [.streamlit/secrets.toml], by the table it holds ([None]
    when there is no file).  [write_failure] is what creating the
    directory or opening the file for writing raises, when it raises. *)
Record Disk : Type := mkDisk {
  secrets_toml : option dict;
  write_failure : option exn
}.

(** [save_secrets]: the file is opened with mode ['w'] and the whole
    table is dumped into it. *)
Definition save_secrets (table : dict) (d : Disk) : exn + Disk :=
  match write_failure d with
  | Some e => inl e
  | None => inr (mkDisk (Some table) None)
  end.

(** The widget values of the settings tab. *)
Record settings_form : Type := mkSettings {
  linkedin_email : string;
  linkedin_password : string;
  save_pressed : bool           (* st.button("Save Settings") *)
}.

(** [st.success] and [st.error] of the settings tab. *)
Inductive notice : Type :=
| StSuccess (msg : string)
| StFailure (msg : string).

Definition new_secrets (f : settings_form) : dict :=
  [("LINKEDIN_EMAIL", PyStr (linkedin_email f));
   ("LINKEDIN_PASSWORD", PyStr (linkedin_password f))].

(** Lines 249-258. *)
Definition settings_tab (f : settings_form) (d : Disk) : Disk * list notice :=
  if save_pressed f then
    match save_secrets (new_secrets f) d with
    | inr d' => (d', [StSuccess "Settings saved successfully!"])
    | inl e => (d, [StFailure ("Failed to save settings: " ++ exn_msg e)])
    end
  else (d, []).

(* ================================================================== *)
(** * What is observed of a run *)

(** The events that put a generated letter in front of the user. *)
Definition result_event (e : event) : bool :=
  match e with
  | ShowSuccess _ | ShowLetter _ | ShowDownload _ _ | StRerun => true
  | _ => false
  end.

(** The calls that reach LinkedIn. *)
Definition fetch_event (e : event) : bool :=
  match e with
  | CallLinkedin _ _ | CallGetProfile _ | CallGetProfileSkills _
  | CallScrapeJobPosting _ => true
  | _ => false
  end.

(** The look-ups in the process environment. *)
Definition environment_event (e : event) : bool :=
  match e with
  | GetEnv _ => true
  | _ => false
  end.

Definition none_of (p : event -> bool) (l : list event) : bool :=
  forallb (fun e => negb (p e)) l.

(** A block is inert for a kind of event when it never writes the
    session state and emits no event of that kind. *)
Definition inert (p : event -> bool) {A} (m : M A) : Prop :=
  forall s, session (m s) = s /\ none_of p (trace (m s)) = true.

(** The session and the screen after a run that produced nothing. *)
Definition nothing_produced (s : dict) (r : run unit) : Prop :=
  session r = s
  /\ letter_ready (session r) = letter_ready s
  /\ Py.lookup "editor_active" (session r) = Py.lookup "editor_active" s
  /\ none_of result_event (trace r) = true.

(** The calls to the editor widget. *)
Definition editor_event (e : event) : bool :=
  match e with
  | CallEditor _ => true
  | _ => false
  end.

(** The request for the skills of a profile. *)
Definition skills_event (e : event) : bool :=
  match e with
  | CallGetProfileSkills _ => true
  | _ => false
  end.

(** A block avoids a kind of event when no run of it emits one. *)
Definition avoids (p : event -> bool) {A} (m : M A) : Prop :=
  forall s, none_of p (trace (m s)) = true.

(** The session state once lines 153-156 have run. *)
Definition initialised (s : dict) : dict :=
  let s1 := match Py.lookup "cover_letter" s with
            | None => Py.store "cover_letter" PyNone s
            | Some _ => s
            end in
  match Py.lookup "editor_active" s1 with
  | None => Py.store "editor_active" (PyBool false) s1
  | Some _ => s1
  end.

(** An education entry that has what the entry format reads without a
    default: a school, and a year under timePeriod.startDate. *)
Definition complete_education (edu : pyval) : bool :=
  match edu with
  | PyDict d =>
      match Py.lookup "schoolName" d, Py.lookup "timePeriod" d with
      | Some _, Some (PyDict period) =>
          match Py.lookup "startDate" period with
          | Some (PyDict start) =>
              match Py.lookup "year" start with
              | Some _ => true
              | None => false
              end
          | _ => false
          end
      | _, _ => false
      end
  | _ => false
  end.

(** A string of slashes only. *)
Fixpoint all_slashes (s : string) : bool :=
  match s with
  | EmptyString => true
  | String c t => Ascii.eqb c "/" && all_slashes t
  end.

(** The start every accepted URL has. *)
Definition linkedin_origin (tls www : bool) : string :=
  "http" ++ (if tls then "s" else EmptyString) ++ "://"
    ++ (if www then "www." else EmptyString) ++ "linkedin.com/".

(** The pattern [validate_linkedin_url] picks for a type. *)
Definition pattern_for (type : string) : regex :=
  if String.eqb type "job" then job_pattern else profile_pattern.

(* ================================================================== *)
(** * Concrete collaborators, for running the pipeline *)

Module Stub.

Definition profile : pyval :=
  PyDict
    [("firstName", PyStr "Jane");
     ("lastName", PyStr "Doe");
     ("education",
       PyList
         [PyDict [("schoolName", PyStr "University of Pisa");
                  ("timePeriod",
                    PyDict [("startDate", PyDict [("year", PyInt 2015)])]);
                  ("description", PyStr "Computer Science")];
          PyDict [("schoolName", PyStr "Liceo Dini");
                  ("timePeriod",
                    PyDict [("startDate", PyDict [("year", PyInt 2010)])])]]);
     ("experience",
       PyList
         [PyDict [("title", PyStr "Engineer");
                  ("companyName", PyStr "Acme");
                  ("description", PyStr "built X")]])].

Definition api : Api :=
  mkApi (fun _ => inr profile)
        (fun _ => inr (PyList [PyDict [("name", PyStr "Python")]])).

Definition letter : pyval :=
  PyDict [("text", PyStr "Dear Hiring Manager...")].

Definition no_env : string -> option string := fun _ => None.

Definition full_env (k : string) : option string :=
  if String.eqb k "LINKEDIN_EMAIL" then Some "jane@example.com"
  else if String.eqb k "LINKEDIN_PASSWORD" then Some "hunter2"
  else None.

Definition saved_secrets : dict :=
  [("LINKEDIN_EMAIL", PyStr "doe@example.com");
   ("LINKEDIN_PASSWORD", PyStr "s3cret")].

(** Every collaborator answers; credentials as given. *)
Definition world (sec : dict) (ge : string -> option string) : Env :=
  mkEnv sec ge
    (fun _ _ => inr api)
    (fun url => inr (PyStr ("posting at " ++ url)))
    (fun _ _ _ => inr letter)
    (fun _ => inr "Dear Hiring Manager...")
    (fun _ => "[...]").

(** The LinkedIn client refuses the login. *)
Definition login_refused (msg : string) : Env :=
  mkEnv saved_secrets no_env
    (fun _ _ => inl (Exn (OtherError "ChallengeException") msg))
    (fun url => inr (PyStr ("posting at " ++ url)))
    (fun _ _ _ => inr letter)
    (fun _ => inr "Dear Hiring Manager...")
    (fun _ => "[...]").

(** The user types [new_text] in the editor. *)
Definition editing (new_text : string) : Env :=
  mkEnv [] no_env
    (fun _ _ => inr api)
    (fun url => inr (PyStr ("posting at " ++ url)))
    (fun _ _ _ => inr letter)
    (fun _ => inr new_text)
    (fun _ => "[...]").

Definition linkedin_form (job profile_ : string) : inputs :=
  Form.mkInputs job profile_ EmptyString "High School" "Computer Science" EmptyString [] [] true true.

Definition manual_form (job nm xp : string) : inputs :=
  Form.mkInputs job EmptyString nm "PhD" "Engineering" xp ["Python"; "Rust"] ["AWS"] false true.

Definition fresh : dict :=
  [("cover_letter", PyNone); ("editor_active", PyBool false)].

Definition with_text (t : string) : dict :=
  [("cover_letter", PyDict [("text", PyStr t); ("model", PyStr "gpt")]);
   ("editor_active", PyBool true)].

End Stub.

(** Further collaborators and session states. *)
Module Sample.

(** What the LinkedIn client gives back for a profile it cannot read. *)
Definition empty_profile_api : Api :=
  mkApi (fun _ => inr (PyDict []))
        (fun _ => inr (PyList [])).

Definition world_with_api (a : Api) : Env :=
  mkEnv Stub.saved_secrets Stub.no_env
    (fun _ _ => inr a)
    (fun url => inr (PyStr ("posting at " ++ url)))
    (fun _ _ _ => inr Stub.letter)
    (fun _ => inr "Dear Hiring Manager...")
    (fun _ => "[...]").

(** The backend answers with a dict that has no text. *)
Definition textless_backend : Env :=
  mkEnv [] Stub.no_env
    (fun _ _ => inr Stub.api)
    (fun url => inr (PyStr ("posting at " ++ url)))
    (fun _ _ _ => inr (PyDict [("error", PyStr "quota exceeded")]))
    (fun _ => inr "Dear Hiring Manager...")
    (fun _ => "[...]").

(** The persona that [Stub.api] leads to, and the form that asks for it. *)
Definition jane : UserPersona :=
  mkUserPersona (PyStr "Jane Doe")
    (PyList [PyStr "University of Pisa (2015) - Computer Science";
             PyStr "Liceo Dini (2010) - No description available"])
    (PyList [PyStr "Engineer at Acme - built X"])
    (PyList [PyStr "Python"])
    (PyList []).

Definition jane_form : inputs :=
  Stub.linkedin_form "https://www.linkedin.com/jobs/view/3544765357/"
    "https://www.linkedin.com/in/janedoe/".

(** What [scrape_profile] does on the way to that persona. *)
Definition jane_scraped : list event :=
  [ReadSecret "LINKEDIN_EMAIL"; ReadSecret "LINKEDIN_PASSWORD";
   CallLinkedin (PyStr "doe@example.com") (PyStr "s3cret");
   CallGetProfile "janedoe"; CallGetProfileSkills "janedoe"].

(** The backend answers with a text that is a number. *)
Definition numeric_backend : Env :=
  mkEnv Stub.saved_secrets Stub.no_env
    (fun _ _ => inr Stub.api)
    (fun url => inr (PyStr ("posting at " ++ url)))
    (fun _ _ _ => inr (PyDict [("text", PyInt 5)]))
    (fun _ => inr "Dear Hiring Manager...")
    (fun _ => "[...]").

Definition textless_session : dict :=
  [("cover_letter", PyDict [("error", PyStr "quota exceeded")]);
   ("editor_active", PyBool true)].

(** A profile with a name and one education entry that has no year. *)
Definition undated_profile : pyval :=
  PyDict
    [("firstName", PyStr "Jane");
     ("lastName", PyStr "Doe");
     ("education",
       PyList
         [PyDict [("schoolName", PyStr "University of Pisa");
                  ("timePeriod",
                    PyDict [("startDate", PyDict [("year", PyInt 2015)])])];
          PyDict [("schoolName", PyStr "Liceo Dini")]])].

Definition undated_profile_api : Api :=
  mkApi (fun _ => inr undated_profile)
        (fun _ => inr (PyList [])).

(** Nothing typed in the settings tab, and the button pressed. *)
Definition blank_settings : settings_form :=
  mkSettings EmptyString EmptyString true.

(** A secrets file that also holds the key of the backend. *)
Definition disk_with_backend_key : Disk :=
  mkDisk (Some [("OPENAI_API_KEY", PyStr "sk-123");
                ("LINKEDIN_EMAIL", PyStr "doe@example.com");
                ("LINKEDIN_PASSWORD", PyStr "s3cret")])
         None.

End Sample.

(* ================================================================== *)
(** * Strings: prefixes and concatenation *)

Module StrFacts.

Lemma strip_prefix_app p t : Str.strip_prefix p (p ++ t) = Some t.
Proof.
  induction p as [|a p IH]; simpl; [reflexivity|].
  now rewrite Ascii.eqb_refl.
Qed.

Lemma strip_prefix_some p s t : Str.strip_prefix p s = Some t -> s = p ++ t.
Proof.
  revert s; induction p as [|a p IH]; intros s H; simpl in *.
  - now inversion H.
  - destruct s as [|b s]; [discriminate|].
    destruct (Ascii.eqb a b) eqn:E; [|discriminate].
    apply Ascii.eqb_eq in E; subst b.
    now rewrite (IH _ H).
Qed.

Lemma app_assoc (a b c : string) : (a ++ b) ++ c = a ++ (b ++ c).
Proof. induction a; simpl; congruence. Qed.

Lemma app_nil_r (a : string) : a ++ EmptyString = a.
Proof. induction a; simpl; congruence. Qed.

End StrFacts.

(* ================================================================== *)
(** * The matcher against the language of a pattern *)

Lemma match_here_complete (r : regex) (p : string) :
  Lang r p -> forall t k, k t = true -> match_here r (p ++ t) k = true.
Proof.
  induction 1 as [lit | r1 r2 s1 s2 _ IH1 _ IH2 | r | r s _ IH
                 | cls c Hc | cls c s Hc _ IH]; intros t k Hk; simpl.
  - now rewrite StrFacts.strip_prefix_app.
  - rewrite StrFacts.app_assoc. apply IH1. now apply IH2.
  - rewrite Hk. apply orb_true_r.
  - now rewrite (IH t k Hk).
  - now rewrite Hc, Hk, orb_true_r.
  - rewrite Hc. simpl in IH. now rewrite (IH t k Hk).
Qed.

Lemma many1_sound (cls : ascii -> bool) (s : string) (k : string -> bool) :
  many1 cls s k = true ->
  exists p t, s = p ++ t /\ Lang (Many1 cls) p /\ k t = true.
Proof.
  induction s as [|c s IH]; simpl; [discriminate|].
  destruct (cls c) eqn:Hc; [|discriminate].
  intros H. apply orb_true_iff in H. destruct H as [H | H].
  - destruct (IH H) as (p & t & -> & HL & Hk).
    exists (String c p), t. repeat split; trivial. now apply LMore.
  - exists (String c EmptyString), s. repeat split; trivial. now apply LOne.
Qed.

Lemma match_here_sound (r : regex) :
  forall s k, match_here r s k = true ->
  exists p t, s = p ++ t /\ Lang r p /\ k t = true.
Proof.
  induction r as [lit | r1 IH1 r2 IH2 | r IH | cls]; intros s k H; simpl in H.
  - destruct (Str.strip_prefix lit s) as [t|] eqn:E; [|discriminate].
    exists lit, t. repeat split; trivial.
    + now apply StrFacts.strip_prefix_some.
    + constructor.
  - destruct (IH1 _ _ H) as (p1 & t1 & -> & HL1 & H1).
    destruct (IH2 _ _ H1) as (p2 & t2 & -> & HL2 & H2).
    exists (p1 ++ p2), t2. rewrite StrFacts.app_assoc.
    repeat split; trivial. now constructor.
  - apply orb_true_iff in H. destruct H as [H | H].
    + destruct (IH _ _ H) as (p & t & -> & HL & Hk).
      exists p, t. repeat split; trivial. now apply LOptSome.
    + exists EmptyString, s. repeat split; trivial. constructor.
  - now apply many1_sound.
Qed.

(** [re.match] succeeds exactly on the strings that start with a word of
    the pattern's language. *)
Lemma re_match_spec (r : regex) (s : string) :
  re_match r s = true <-> exists p t, s = p ++ t /\ Lang r p.
Proof.
  unfold re_match. split.
  - intros H. destruct (match_here_sound _ _ _ H) as (p & t & E & HL & _). eauto.
  - intros (p & t & -> & HL). now apply match_here_complete.
Qed.

Lemma Lang_nonempty_job (p : string) : Lang job_pattern p -> Str.is_empty p = false.
Proof.
  unfold job_pattern. intros H.
  inversion H as [ | r1 r2 s1 s2 H1 H2 | | | | ]; subst.
  inversion H1; subst. reflexivity.
Qed.

(* ================================================================== *)
(** * Properties of the URL validator *)

(** C7. The job-posting validator accepts
    https://www.linkedin.com/jobs/view/3544765357/ and rejects both
    https://example.com/jobs/1 and
    https://www.linkedin.com/jobs/view/abc. *)
Theorem validator_examples :
  validate_linkedin_url "https://www.linkedin.com/jobs/view/3544765357/" "job" = true
  /\ validate_linkedin_url "https://example.com/jobs/1" "job" = false
  /\ validate_linkedin_url "https://www.linkedin.com/jobs/view/abc" "job" = false.
Proof. repeat split; reflexivity. Qed.

(** C9. The job-posting validator is anchored at the start of the URL
    only: a string that begins with a word of the posting pattern
    (http or https, an optional www., linkedin.com/jobs/view/ and one or
    more digits) is accepted whatever follows, as
    https://www.linkedin.com/jobs/view/1abc?x=y is; the empty string is
    rejected. *)
Theorem validator_prefix_anchored :
  (forall pre rest : string,
      Lang job_pattern pre ->
      validate_linkedin_url (pre ++ rest) "job" = true)
  /\ validate_linkedin_url "https://www.linkedin.com/jobs/view/1abc?x=y" "job" = true
  /\ validate_linkedin_url EmptyString "job" = false.
Proof.
  split; [|split; reflexivity].
  intros pre rest H. unfold validate_linkedin_url.
  pose proof (Lang_nonempty_job _ H) as Hne.
  destruct pre as [|c pre]; [discriminate|]. simpl Str.is_empty. cbv iota.
  change (String.eqb "job" "job") with true. cbv iota.
  apply re_match_spec. now exists (String c pre), rest.
Qed.

(** The shape of a posting URL, spelled out. *)
Lemma posting_shape_in_language (tls www : bool) (d : ascii) :
  digit d = true ->
  Lang job_pattern
    ("http" ++ (if tls then "s" else EmptyString) ++ "://"
      ++ (if www then "www." else EmptyString) ++ "linkedin.com/jobs/view/" ++ String d EmptyString).
Proof.
  intros Hd. unfold job_pattern.
  apply LCat; [constructor|].
  apply LCat; [destruct tls; [apply LOptSome|]; constructor|].
  apply LCat; [constructor|].
  apply LCat; [destruct www; [apply LOptSome|]; constructor|].
  apply LCat; [constructor|].
  now apply LOne.
Qed.

Lemma validator_prefix_anchored_witness :
  validate_linkedin_url ("http://linkedin.com/jobs/view/7" ++ "/apply?now") "job" = true.
Proof.
  apply (proj1 validator_prefix_anchored "http://linkedin.com/jobs/view/7" "/apply?now").
  apply (posting_shape_in_language false false "7"). reflexivity.
Defined.

(* ================================================================== *)
(** * Blocks that leave the session alone *)

Lemma none_of_app p l1 l2 :
  none_of p (l1 ++ l2) = none_of p l1 && none_of p l2.
Proof. apply forallb_app. Qed.

Lemma none_of_cons p e l :
  none_of p (e :: l) = negb (p e) && none_of p l.
Proof. reflexivity. Qed.

Lemma none_of_In p l e : none_of p l = true -> p e = true -> ~ In e l.
Proof.
  unfold none_of. rewrite forallb_forall. intros H He Hin.
  specialize (H e Hin). now rewrite He in H.
Qed.

Section Inert.

Variable p : event -> bool.

Lemma inert_ret {A} (a : A) : inert p (ret a).
Proof. intros s; now split. Qed.

Lemma inert_raise {A} (e : exn) : inert p (@raise A e).
Proof. intros s; now split. Qed.

Lemma inert_halt {A} : inert p (@halt A).
Proof. intros s; now split. Qed.

Lemma inert_lift {A} (r : exn + A) : inert p (lift r).
Proof. destruct r; [apply inert_raise | apply inert_ret]. Qed.

Lemma inert_get_session : inert p get_session.
Proof. intros s; now split. Qed.

Lemma inert_emit (e : event) : p e = false -> inert p (emit e).
Proof. intros H s; split; trivial. simpl. now rewrite H. Qed.

Lemma inert_bind {A B} (m : M A) (f : A -> M B) :
  inert p m -> (forall a, inert p (f a)) -> inert p (bind m f).
Proof.
  intros Hm Hf s. unfold bind.
  destruct (Hm s) as [Hs Ht].
  destruct (out (m s)) as [a| |]; simpl; auto.
  destruct (Hf a (session (m s))) as [Hs' Ht'].
  rewrite none_of_app, Ht, Ht', Hs', Hs. now split.
Qed.

Lemma inert_try {A} (m : M A) (h : exn -> M A) :
  inert p m -> (forall e, inert p (h e)) -> inert p (try_except m h).
Proof.
  intros Hm Hh s. unfold try_except.
  destruct (Hm s) as [Hs Ht].
  destruct (out (m s)) as [a|e|]; simpl; auto.
  destruct (Hh e (session (m s))) as [Hs' Ht'].
  rewrite none_of_app, Ht, Ht', Hs', Hs. now split.
Qed.

End Inert.

Create HintDb inert.
#[export] Hint Resolve inert_ret inert_raise inert_halt inert_lift
  inert_get_session inert_bind inert_try : inert.
#[export] Hint Extern 1 (inert _ (emit _)) =>
  (apply inert_emit; reflexivity) : inert.

(** Splits an inert goal along binds, handlers and conditionals. *)
Ltac inert_steps :=
  repeat first
    [ progress auto with inert
    | apply inert_bind; [|intro]
    | apply inert_try; [|intro]
    | match goal with
      | |- inert _ (if ?c then _ else _) => destruct c
      | |- inert _ (match ?x with _ => _ end) => destruct x
      end ].

(** What running a bind amounts to, by the way its first part ends. *)
Lemma bind_val {A B} (m : M A) (f : A -> M B) s a :
  out (m s) = Val a ->
  bind m f s =
  Run (out (f a (session (m s)))) (session (f a (session (m s))))
      (trace (m s) ++ trace (f a (session (m s)))).
Proof. unfold bind. now intros ->. Qed.

Lemma bind_raise {A B} (m : M A) (f : A -> M B) s e :
  out (m s) = Raise e ->
  bind m f s = Run (Raise e) (session (m s)) (trace (m s)).
Proof. unfold bind. now intros ->. Qed.

Lemma bind_halt {A B} (m : M A) (f : A -> M B) s :
  out (m s) = Halt ->
  bind m f s = Run Halt (session (m s)) (trace (m s)).
Proof. unfold bind. now intros ->. Qed.

(** A bind that ends with a value ran both of its parts to a value. *)
Lemma bind_inv_val {A B} (m : M A) (f : A -> M B) s b :
  out (bind m f s) = Val b ->
  exists a, out (m s) = Val a /\ out (f a (session (m s))) = Val b.
Proof.
  unfold bind. destruct (out (m s)) as [a| |]; simpl; try discriminate.
  intros H. now exists a.
Qed.

Lemma run_eta {A} (r : run A) : Run (out r) (session r) (trace r) = r.
Proof. now destruct r. Qed.

Lemma bind_emit {B} (e : event) (f : unit -> M B) s :
  bind (emit e) f s = Run (out (f tt s)) (session (f tt s)) (e :: trace (f tt s)).
Proof. reflexivity. Qed.

Lemma bind_set {B} k v (f : unit -> M B) s :
  bind (set_session k v) f s = f tt (Py.store k v s).
Proof. unfold bind, set_session. cbn [out session trace app]. apply run_eta. Qed.

Lemma bind_ret {A B} (a : A) (f : A -> M B) s : bind (ret a) f s = f a s.
Proof. unfold bind, ret. cbn [out session trace app]. apply run_eta. Qed.

Lemma bind_assoc {A B C} (m : M A) (f : A -> M B) (g : B -> M C) s :
  bind (bind m f) g s = bind m (fun x => bind (f x) g) s.
Proof.
  unfold bind. destruct (out (m s)) as [a| |]; cbn [out session trace]; trivial.
  destruct (out (f a (session (m s)))); cbn [out session trace]; trivial.
  now rewrite List.app_assoc.
Qed.

Lemma bind_get {B} (f : dict -> M B) s : bind get_session f s = f s s.
Proof. unfold bind, get_session. cbn [out session trace app]. apply run_eta. Qed.

Lemma bind_pure {A B} (m : M A) (f : A -> M B) s a :
  m s = Run (Val a) s [] -> bind m f s = f a s.
Proof. intros H. unfold bind. rewrite H. cbn [out session trace app]. apply run_eta. Qed.

Lemma bind_raise_step {A B} (e : exn) (f : A -> M B) s :
  bind (raise e) f s = Run (Raise e) s [].
Proof. reflexivity. Qed.

Lemma bind_lift_inr {A B} (a : A) (f : A -> M B) s :
  bind (lift (inr a)) f s = f a s.
Proof. apply bind_ret. Qed.

Lemma bind_lift_inl {A B} (e : exn) (f : A -> M B) s :
  bind (lift (inl e)) f s = Run (Raise e) s [].
Proof. reflexivity. Qed.

Create Rewrite HintDb run.
#[export] Hint Rewrite @bind_assoc @bind_emit @bind_set @bind_ret @bind_get
  @bind_lift_inr @bind_lift_inl : run.

(** Runs the straight-line start of a block. *)
Ltac run_steps :=
  repeat (autorewrite with run; cbn [out session trace]).

Lemma lift_inv_val {A} (r : exn + A) s a :
  out (lift r s) = Val a -> r = inr a.
Proof. destruct r; simpl; intros H; now inversion H. Qed.

Lemma and_then_inv {A B} (r : exn + A) (f : A -> exn + B) b :
  and_then r f = inr b -> exists a, r = inr a /\ f a = inr b.
Proof. destruct r as [e|a]; simpl; [discriminate|]. intros H. now exists a. Qed.

Lemma comprehension_length {A B} (f : A -> exn + B) (l : list A) (l' : list B) :
  comprehension f l = inr l' -> length l' = length l.
Proof.
  revert l'. induction l as [|x l IH]; simpl; intros l' H.
  - now inversion H.
  - destruct (f x) as [e|y]; [discriminate|].
    destruct (comprehension f l) as [e|ys]; [discriminate|].
    inversion H; subst. simpl. now rewrite (IH ys eq_refl).
Qed.

Lemma comprehension_forall {A B} (f : A -> exn + B) (l : list A) (l' : list B) :
  comprehension f l = inr l' -> Forall2 (fun x y => f x = inr y) l l'.
Proof.
  revert l'. induction l as [|x l IH]; simpl; intros l' H.
  - inversion H. constructor.
  - destruct (f x) as [e|y] eqn:E; [discriminate|].
    destruct (comprehension f l) as [e|ys]; [discriminate|].
    inversion H; subst. constructor; auto.
Qed.

Lemma lookup_store_same k v d : Py.lookup k (Py.store k v d) = Some v.
Proof.
  induction d as [|[k' v'] d IH]; simpl.
  - now rewrite String.eqb_refl.
  - destruct (String.eqb k k') eqn:E; simpl; now rewrite E.
Qed.

Lemma lookup_store_other k k' v d :
  k <> k' -> Py.lookup k (Py.store k' v d) = Py.lookup k d.
Proof.
  intros Hne. induction d as [|[k0 v0] d IH]; simpl.
  - apply String.eqb_neq in Hne. now rewrite Hne.
  - destruct (String.eqb k' k0) eqn:E; simpl.
    + apply String.eqb_eq in E; subst k0.
      apply String.eqb_neq in Hne. now rewrite Hne.
    + now rewrite IH.
Qed.

Lemma is_empty_true s : Str.is_empty s = true <-> s = EmptyString.
Proof. destruct s; simpl; split; congruence. Qed.

Lemma is_empty_false s : Str.is_empty s = false <-> s <> EmptyString.
Proof. destruct s; simpl; split; congruence. Qed.

Section Properties.

Variable env : Env.

#[local] Arguments Str.contains : simpl never.
#[local] Arguments Py.subscript : simpl never.
#[local] Arguments Py.store : simpl never.
#[local] Arguments append : simpl never.

Lemma inert_credentials : inert result_event (credentials env).
Proof. unfold credentials, read_secret, os_getenv. inert_steps. Qed.

Lemma inert_fetch_and_normalize p email pwd id :
  p (CallLinkedin email pwd) = false ->
  p (CallGetProfile id) = false ->
  p (CallGetProfileSkills id) = false ->
  inert p (fetch_and_normalize env email pwd id).
Proof.
  intros H1 H2 H3. unfold fetch_and_normalize.
  repeat first
    [ apply inert_emit; assumption
    | apply inert_lift
    | apply inert_ret
    | apply inert_bind; [|intro] ].
Qed.

Lemma inert_scrape_profile id : inert result_event (scrape_profile env id).
Proof.
  unfold scrape_profile.
  apply inert_bind; [apply inert_credentials|intros creds].
  apply inert_try; [now apply inert_fetch_and_normalize|intros e; apply inert_raise].
Qed.

Lemma inert_build_user i : inert result_event (build_user env i).
Proof.
  unfold build_user.
  destruct (Form.tab1_active i).
  - destruct (Str.is_empty (Form.job_url i)); [inert_steps|].
    destruct (Str.is_empty (Form.profile_url i)); [inert_steps|].
    apply inert_scrape_profile.
  - inert_steps.
Qed.

Lemma inert_fetch_and_query i user : inert result_event (fetch_and_query env i user).
Proof. unfold fetch_and_query. inert_steps. Qed.

Lemma inert_report e : inert result_event (report e).
Proof. unfold report. inert_steps. Qed.

(** ** Manual input *)

(** C5. From the manual form with a name and an experience that are
    both filled in, the persona is built, and its education is the
    text of the level, then " in ", then the field. *)
Theorem manual_persona_education (i : inputs) (s : dict) :
  Form.tab1_active i = false ->
  Form.name i <> EmptyString ->
  Form.experience i <> EmptyString ->
  exists p : UserPersona,
    build_user env i s = Run (Val p) s []
    /\ education p = PyStr (Form.education_level i ++ " in " ++ Form.education_field i)
    /\ name p = PyStr (Form.name i)
    /\ experience p = PyStr (Form.experience i).
Proof.
  intros Htab Hn Hx. unfold build_user. rewrite Htab.
  apply is_empty_false in Hn, Hx. rewrite Hn, Hx. simpl.
  eexists. split; [reflexivity|]. now repeat split.
Qed.

(** C6. From the manual form with an empty name or an empty
    experience, the handler reports the missing fields and leaves
    [main]: no persona is built, nothing is fetched, the session is
    as it was. *)
Theorem manual_missing_field_rejected (i : inputs) (s : dict) :
  Form.tab1_active i = false ->
  Form.name i = EmptyString \/ Form.experience i = EmptyString ->
  build_user env i s = Run Halt s [StError "Please fill in all required fields"]
  /\ generate env i s = Run Halt s [StError "Please fill in all required fields"].
Proof.
  intros Htab Hmiss.
  assert (E : Str.is_empty (Form.name i) || Str.is_empty (Form.experience i) = true).
  { destruct Hmiss as [H | H]; rewrite H; simpl; trivial. apply orb_true_r. }
  assert (B : build_user env i s
              = Run Halt s [StError "Please fill in all required fields"]).
  { unfold build_user. rewrite Htab, E. reflexivity. }
  split; [exact B|].
  unfold generate, try_except.
  rewrite (bind_halt (build_user env i)); rewrite B; reflexivity.
Qed.

(** ** The generate handler as a unit *)

Lemma nothing_produced_intro (s : dict) (r : run unit) :
  session r = s -> none_of result_event (trace r) = true ->
  nothing_produced s r.
Proof. intros Hs Ht. unfold nothing_produced. rewrite Hs. now repeat split. Qed.

Lemma reported_failure (body : M unit) (s : dict) (e : exn) :
  out (body s) = Raise e ->
  session (body s) = s ->
  none_of result_event (trace (body s)) = true ->
  nothing_produced s (try_except body report s).
Proof.
  intros Ho Hs Ht. unfold try_except. rewrite Ho.
  destruct (inert_report e (session (body s))) as [Hs' Ht'].
  apply nothing_produced_intro; cbn [session trace out].
  - now rewrite Hs', Hs.
  - now rewrite none_of_app, Ht, Ht'.
Qed.

Lemma session_store_and_show (response : pyval) (s : dict) :
  session (try_except (store_and_show env response) report s)
  = Py.store "editor_active" (PyBool true) (Py.store "cover_letter" response s).
Proof.
  unfold try_except, store_and_show.
  rewrite !bind_set, bind_emit.
  destruct (Py.subscript response "text") as [e|text].
  - rewrite bind_lift_inl. cbn [out session trace].
    apply (inert_report e).
  - rewrite bind_lift_inr, bind_emit, bind_lift_inr. unfold download_button.
    destruct text; rewrite ?bind_raise_step, ?bind_emit; cbn [out session trace];
      try apply (inert_report _); reflexivity.
Qed.

(** C1. Generation is a unit.  When the persona cannot be built, or
    the posting cannot be fetched, or the backend call fails, the
    handler leaves the session state as it was (so the stored letter
    and the editor flag are as before, and no editor tab appears) and
    shows no letter; the response is stored only when all three
    stages have succeeded. *)
Theorem generate_atomic (i : inputs) (s : dict) :
  let r := generate env i s in
  match out (build_user env i s) with
  | Val user =>
      match scrape_job_posting env (Form.job_url i) with
      | inr job_posting =>
          match query env user job_posting template_path with
          | inr response =>
              session r =
              Py.store "editor_active" (PyBool true)
                (Py.store "cover_letter" response s)
          | inl _ => nothing_produced s r
          end
      | inl _ => nothing_produced s r
      end
  | Raise _ => nothing_produced s r
  | Halt => nothing_produced s r
  end.
Proof.
  intros r. subst r. unfold generate.
  destruct (inert_build_user i s) as [Hs Ht].
  destruct (out (build_user env i s)) as [user|e|] eqn:Ho.
  - assert (Hrun : forall k : pyval -> M unit,
               bind (build_user env i)
                 (fun user => bind (fetch_and_query env i user) k) s
               = let q := bind (fetch_and_query env i user) k s in
                 Run (out q) (session q) (trace (build_user env i s) ++ trace q)).
    { intros k. rewrite (bind_val _ _ _ _ Ho), Hs. reflexivity. }
    destruct (inert_fetch_and_query i user s) as [Hs2 Ht2].
    revert Hs2 Ht2. unfold fetch_and_query at 1 2.
    rewrite !bind_emit. cbn [out session trace].
    destruct (scrape_job_posting env (Form.job_url i)) as [e|job] eqn:Hj.
    + rewrite bind_lift_inl. cbn [session trace]. intros _ Ht2.
      apply reported_failure with (e := e); rewrite Hrun;
        unfold fetch_and_query; cbv zeta;
        rewrite bind_raise with (e := e);
        rewrite ?bind_emit, ?Hj, ?bind_lift_inl; cbn [out session trace]; trivial.
      now rewrite none_of_app, Ht.
    + rewrite bind_lift_inr, bind_emit. cbn [out session trace].
      destruct (query env user job template_path) as [e|response] eqn:Hq.
      * intros _ Ht2.
        apply reported_failure with (e := e); rewrite Hrun;
          unfold fetch_and_query; cbv zeta;
          rewrite bind_raise with (e := e);
          rewrite ?bind_emit, ?Hj, ?bind_lift_inr, ?bind_emit, ?Hq;
          cbn [out session trace lift raise]; trivial.
        now rewrite none_of_app, Ht.
      * intros _ _.
        pose proof (session_store_and_show response s) as Hstore.
        unfold try_except in *. rewrite Hrun. cbv zeta.
        assert (Hq' : fetch_and_query env i user s
                      = Run (Val response) s
                          [CallScrapeJobPosting (Form.job_url i);
                           CallQuery user job template_path]).
        { unfold fetch_and_query.
          now rewrite bind_emit, Hj, bind_lift_inr, bind_emit, Hq. }
        rewrite (bind_val _ _ _ response) by now rewrite Hq'.
        rewrite Hq'. cbn [out session trace].
        destruct (out (store_and_show env response s)); exact Hstore.
  - apply reported_failure with (e := e);
      now rewrite (bind_raise _ _ _ _ Ho).
  - apply nothing_produced_intro; unfold try_except;
      rewrite (bind_halt _ _ _ Ho); cbn [out session trace]; assumption.
Qed.

(** The handler hands the job URL to the scraper as soon as there is a
    persona; the verdict of the validator plays no part. *)
Lemma posting_fetched_unchecked (i : inputs) (s : dict) (user : UserPersona) :
  out (build_user env i s) = Val user ->
  In (CallScrapeJobPosting (Form.job_url i)) (trace (generate env i s)).
Proof.
  intros Ho. unfold generate, try_except.
  set (body := bind (build_user env i) _).
  assert (T : exists rest,
             trace (body s)
             = (trace (build_user env i s)
                  ++ CallScrapeJobPosting (Form.job_url i) :: rest)%list).
  { subst body. rewrite (bind_val _ _ _ _ Ho). cbn [trace].
    unfold fetch_and_query. rewrite bind_assoc, bind_emit. cbn [trace]. eauto. }
  destruct T as [rest T].
  destruct (out (body s)); cbn [trace]; rewrite T, ?in_app_iff; cbn; auto.
Qed.

(** ** Credentials *)

Lemma credentials_from_secrets (s : dict) (c : pyval * pyval) :
  from_secrets (secrets env) = Some c ->
  credentials env s
  = Run (Val c) s [ReadSecret "LINKEDIN_EMAIL"; ReadSecret "LINKEDIN_PASSWORD"].
Proof.
  unfold from_secrets, credentials, try_except, read_secret, Py.subscript.
  destruct (Py.lookup "LINKEDIN_EMAIL" (secrets env)) as [email|]; [|discriminate].
  destruct (Py.lookup "LINKEDIN_PASSWORD" (secrets env)) as [pwd|]; [|discriminate].
  intros H; inversion H; subst c.
  run_steps. reflexivity.
Qed.

Lemma credentials_from_environment (s : dict) :
  from_secrets (secrets env) = None ->
  exists reads,
    credentials env s
    = Run (match from_environment (getenv env) with
           | Some c => Val c
           | None => Raise missing_credentials
           end) s
          (ReadSecret "LINKEDIN_EMAIL" :: reads
             ++ [GetEnv "LINKEDIN_EMAIL"; GetEnv "LINKEDIN_PASSWORD"])
    /\ none_of fetch_event reads = true.
Proof.
  unfold from_secrets, from_environment, credentials, try_except,
    read_secret, os_getenv, Py.subscript.
  destruct (Py.lookup "LINKEDIN_EMAIL" (secrets env)) as [email|].
  - destruct (Py.lookup "LINKEDIN_PASSWORD" (secrets env)) as [pwd|];
      [discriminate|]. intros _.
    exists [ReadSecret "LINKEDIN_PASSWORD"]. split; [|reflexivity].
    run_steps.
    destruct (getenv env "LINKEDIN_EMAIL") as [e|],
             (getenv env "LINKEDIN_PASSWORD") as [p|]; cbn [env_falsy env_value];
      rewrite ?orb_true_r; try reflexivity.
    destruct (Str.is_empty e || Str.is_empty p); reflexivity.
  - intros _. exists []. split; [|reflexivity].
    run_steps.
    destruct (getenv env "LINKEDIN_EMAIL") as [e|],
             (getenv env "LINKEDIN_PASSWORD") as [p|]; cbn [env_falsy env_value];
      rewrite ?orb_true_r; try reflexivity.
    destruct (Str.is_empty e || Str.is_empty p); reflexivity.
Qed.

(** How the second [try] of [scrape_profile] ends and what it did. *)
Lemma wrapped_fetch (email pwd : pyval) (id : string) (s : dict) :
  let body := fetch_and_normalize env email pwd id in
  let r := try_except body
             (fun e => raise (Exn Exception_ (scrape_prefix ++ exn_msg e))) s in
  (exists rest, trace r = CallLinkedin email pwd :: rest)
  /\ match out (body s) with
     | Val p => out r = Val p
     | Raise e => out r = Raise (Exn Exception_ (scrape_prefix ++ exn_msg e))
     | Halt => out r = Halt
     end.
Proof.
  intros body r. subst body r. unfold try_except.
  assert (T : exists rest,
             trace (fetch_and_normalize env email pwd id s)
             = CallLinkedin email pwd :: rest).
  { unfold fetch_and_normalize. rewrite bind_emit. eexists. reflexivity. }
  destruct T as [rest T].
  destruct (out (fetch_and_normalize env email pwd id s)) as [p|e|] eqn:Ho;
    cbn [out session trace raise]; rewrite ?T; split; cbn [app]; eauto.
Qed.

Lemma scrape_profile_run (id : string) (s : dict) (c : pyval * pyval) :
  out (credentials env s) = Val c ->
  scrape_profile env id s
  = let r := try_except (fetch_and_normalize env (fst c) (snd c) id)
               (fun e => raise (Exn Exception_ (scrape_prefix ++ exn_msg e)))
               (session (credentials env s)) in
    Run (out r) (session r) (trace (credentials env s) ++ trace r).
Proof. intros H. unfold scrape_profile. now rewrite (bind_val _ _ _ _ H). Qed.

Lemma resolve_cases :
  (exists c, from_secrets (secrets env) = Some c /\ resolve_credentials env = Some c)
  \/ (from_secrets (secrets env) = None
      /\ resolve_credentials env = from_environment (getenv env)).
Proof.
  unfold resolve_credentials. cbn [first_supplying].
  destruct (from_secrets (secrets env)) as [c|]; [left; eauto|right].
  split; trivial. now destruct (from_environment (getenv env)).
Qed.

(** What [scrape_profile] does, by the credentials that are found. *)
Lemma scrape_profile_cases (id : string) (s : dict) :
  let r := scrape_profile env id s in
  match resolve_credentials env with
  | None =>
      out r = Raise missing_credentials /\ none_of fetch_event (trace r) = true
  | Some (email, pwd) =>
      (exists reads rest,
          trace r = (reads ++ CallLinkedin email pwd :: rest)%list
          /\ none_of fetch_event reads = true)
      /\ match out (fetch_and_normalize env email pwd id s) with
         | Val p => out r = Val p
         | Raise e => out r = Raise (Exn Exception_ (scrape_prefix ++ exn_msg e))
         | Halt => out r = Halt
         end
  end.
Proof.
  intros r. subst r.
  destruct resolve_cases as [(c & Hsec & Hres) | (Hsec & Hres)]; rewrite Hres.
  - destruct c as [email pwd].
    pose proof (credentials_from_secrets s _ Hsec) as Hc.
    rewrite (scrape_profile_run id s (email, pwd)) by now rewrite Hc.
    rewrite Hc. cbn [out session trace fst snd]. cbv zeta.
    destruct (wrapped_fetch email pwd id s) as [[rest T] Ho].
    cbn [out session trace]. split; [|exact Ho].
    exists [ReadSecret "LINKEDIN_EMAIL"; ReadSecret "LINKEDIN_PASSWORD"], rest.
    rewrite T. now split.
  - destruct (credentials_from_environment s Hsec) as (reads & Hc & Hreads).
    destruct (from_environment (getenv env)) as [[email pwd]|].
    + rewrite (scrape_profile_run id s (email, pwd)) by now rewrite Hc.
      rewrite Hc. cbn [out session trace fst snd]. cbv zeta.
      destruct (wrapped_fetch email pwd id s) as [[rest T] Ho].
      cbn [out session trace]. split; [|exact Ho].
      exists (ReadSecret "LINKEDIN_EMAIL" :: reads
                ++ [GetEnv "LINKEDIN_EMAIL"; GetEnv "LINKEDIN_PASSWORD"]), rest.
      rewrite T. split; [reflexivity|].
      cbn [none_of forallb fetch_event negb andb].
      change (forallb (fun e => negb (fetch_event e))) with (none_of fetch_event).
      now rewrite none_of_app, Hreads.
    + unfold scrape_profile.
      rewrite (bind_raise _ _ _ missing_credentials) by now rewrite Hc.
      rewrite Hc. cbn [out session trace]. split; [reflexivity|].
      cbn [none_of forallb fetch_event negb andb].
      change (forallb (fun e => negb (fetch_event e))) with (none_of fetch_event).
      now rewrite none_of_app, Hreads.
Qed.

(** C8. [scrape_profile] looks for the credentials in a fixed order,
    the secrets first and the environment second, and uses the first
    source that supplies both fields.  It fails with the
    missing-credentials error exactly when neither source does, and
    then nothing has been fetched; otherwise the first call to
    LinkedIn is the login with the credentials of that source. *)
Theorem credentials_resolution (id : string) (s : dict) :
  let r := scrape_profile env id s in
  (out r = Raise missing_credentials <-> resolve_credentials env = None)
  /\ (resolve_credentials env = None -> none_of fetch_event (trace r) = true)
  /\ (forall email pwd,
         resolve_credentials env = Some (email, pwd) ->
         exists reads rest,
           trace r = (reads ++ CallLinkedin email pwd :: rest)%list
           /\ none_of fetch_event reads = true)
  /\ (exists rest, trace r = ReadSecret "LINKEDIN_EMAIL" :: rest)
  /\ (forall c, from_secrets (secrets env) = Some c ->
         resolve_credentials env = Some c
         /\ forall k, ~ In (GetEnv k) (trace r)).
Proof.
  intros r. subst r.
  pose proof (scrape_profile_cases id s) as H. cbv zeta in H.
  repeat split.
  - intros Hout. destruct (resolve_credentials env) as [[email pwd]|]; trivial.
    destruct H as [_ H].
    destruct (out (fetch_and_normalize env email pwd id s));
      rewrite H in Hout; discriminate.
  - intros Hnone. rewrite Hnone in H. apply H.
  - intros Hnone. rewrite Hnone in H. apply H.
  - intros email pwd Hsome. rewrite Hsome in H. apply H.
  - destruct resolve_cases as [(c & Hsec & Hres) | (Hsec & Hres)].
    + pose proof (credentials_from_secrets s _ Hsec) as Hc.
      rewrite (scrape_profile_run id s c) by now rewrite Hc.
      rewrite Hc. cbn [trace app]. eauto.
    + destruct (credentials_from_environment s Hsec) as (reads & Hc & _).
      unfold scrape_profile, bind. rewrite Hc. cbn [out session trace].
      destruct (from_environment (getenv env)); cbn [trace app]; eauto.
  - destruct resolve_cases as [(c' & Hsec & Hres) | (Hsec & Hres)]; congruence.
  - intros k Hin.
    match goal with
    | Hsec : from_secrets _ = Some _ |- _ =>
        pose proof (credentials_from_secrets s _ Hsec) as Hc
    end.
    rewrite (scrape_profile_run id s c) in Hin by now rewrite Hc.
    rewrite Hc in Hin. cbn [out session trace app] in Hin. cbv zeta in Hin.
    cbn [trace] in Hin.
    destruct Hin as [Hin | [Hin | Hin]]; try discriminate.
    revert Hin. apply none_of_In with (p := environment_event); [|reflexivity].
    apply (inert_try environment_event); [|intros e; apply inert_raise].
    now apply inert_fetch_and_normalize.
Qed.

(** ** Errors of [scrape_profile] and the hint of the handler *)

Lemma contains_after_prefix (inner : string) :
  Str.contains "credentials not found" (scrape_prefix ++ inner)
  = Str.contains "credentials not found" inner.
Proof. reflexivity. Qed.

Lemma hint_shown (e : exn) (s : dict) :
  In (StInfo fallback_hint) (trace (report e s))
  <-> Str.contains "credentials not found" (exn_msg e) = true.
Proof.
  unfold report. rewrite bind_emit. cbn [trace].
  destruct (Str.contains "credentials not found" (exn_msg e)); cbn; split;
    intros H; try discriminate; auto.
  destruct H as [H | []]. discriminate.
Qed.

(** C10, as the code has it.  An error raised while the profile is
    fetched or normalised leaves [scrape_profile] wrapped, its message
    after "Failed to scrape LinkedIn profile: ".  When no credentials
    are found, what [scrape_profile] raises is the missing-credentials
    error itself, before anything is fetched, and its message does not
    start with that prefix.  Every error of [scrape_profile] is one of
    the two.  The handler shows the manual-input hint exactly when the
    message it reports contains "credentials not found": always for the
    missing-credentials error, and for a wrapped error exactly when the
    wrapped message contains that phrase. *)
Theorem scrape_errors_distinguishable (id : string) (s : dict) :
  let r := scrape_profile env id s in
  (forall email pwd e0,
      resolve_credentials env = Some (email, pwd) ->
      out (fetch_and_normalize env email pwd id s) = Raise e0 ->
      out r = Raise (Exn Exception_ (scrape_prefix ++ exn_msg e0)))
  /\ (resolve_credentials env = None ->
      out r = Raise missing_credentials
      /\ none_of fetch_event (trace r) = true)
  /\ (forall e,
         out r = Raise e ->
         (resolve_credentials env = None
          /\ e = missing_credentials
          /\ Str.strip_prefix scrape_prefix (exn_msg e) = None
          /\ forall s', In (StInfo fallback_hint) (trace (report e s')))
         \/ (exists email pwd e0,
                resolve_credentials env = Some (email, pwd)
                /\ out (fetch_and_normalize env email pwd id s) = Raise e0
                /\ e = Exn Exception_ (scrape_prefix ++ exn_msg e0)
                /\ Str.strip_prefix scrape_prefix (exn_msg e) = Some (exn_msg e0)
                /\ forall s',
                     In (StInfo fallback_hint) (trace (report e s'))
                     <-> Str.contains "credentials not found" (exn_msg e0) = true))
  /\ Str.strip_prefix scrape_prefix (exn_msg missing_credentials) = None
  /\ (forall e s', In (StInfo fallback_hint) (trace (report e s'))
                   <-> Str.contains "credentials not found" (exn_msg e) = true)
  /\ Str.contains "credentials not found" (exn_msg missing_credentials) = true
  /\ (forall inner,
         Str.contains "credentials not found" (scrape_prefix ++ inner)
         = Str.contains "credentials not found" inner).
Proof.
  intros r. subst r.
  pose proof (scrape_profile_cases id s) as H. cbv zeta in H.
  split; [|split; [|split; [|split; [reflexivity|split; [|split; [reflexivity|]]]]]].
  - intros email pwd e0 Hres Hraise.
    rewrite Hres in H. destruct H as [_ H]. now rewrite Hraise in H.
  - intros Hres. rewrite Hres in H. exact H.
  - intros e He.
    destruct (resolve_credentials env) as [[email pwd]|].
    + right. destruct H as [_ H].
      destruct (out (fetch_and_normalize env email pwd id s)) as [p|e0|] eqn:Hf;
        rewrite H in He; try discriminate.
      inversion He; subst e. exists email, pwd, e0.
      repeat split; trivial.
      * intros Hin. apply (proj1 (hint_shown _ _)) in Hin. cbn [exn_msg] in Hin.
        now rewrite contains_after_prefix in Hin.
      * intros Hc. apply (proj2 (hint_shown _ _)). cbn [exn_msg].
        now rewrite contains_after_prefix.
    + left. destruct H as [H _]. rewrite H in He. inversion He; subst e.
      repeat split. intros s'. apply hint_shown. reflexivity.
  - intros e s'. apply hint_shown.
  - apply contains_after_prefix.
Qed.

(** ** The education field *)

Lemma education_entry_str (edu v : pyval) :
  education_entry env edu = inr v -> exists str, v = PyStr str.
Proof.
  unfold education_entry. intros H.
  repeat (apply and_then_inv in H; destruct H as (? & _ & H)).
  inversion H. eauto.
Qed.







(** ** The editor tab *)

(** C4, as the code has it.  With a letter stored whose text is
    [cur], an edit that gives back the same text leaves the session
    state as it is, and an edit that gives back another text replaces
    the text of the stored letter and nothing else; the text that was
    there before is not kept anywhere. *)
Theorem editor_edit (s : dict) (letter : dict) (cur new : string) :
  Py.lookup "cover_letter" s = Some (PyDict letter) ->
  Py.lookup "text" letter = Some (PyStr cur) ->
  create_editing_interface env (PyStr cur) = inr new ->
  let r := editor_tab env s in
  out r = Val tt
  /\ (new = cur -> session r = s)
  /\ (new <> cur ->
      session r
      = Py.store "cover_letter" (PyDict (Py.store "text" (PyStr new) letter)) s)
  /\ current_text (session r) = Some (PyStr new).
Proof.
  intros Hl Ht He r. subst r.
  assert (Hrun : editor_tab env s
            = if String.eqb new cur
              then Run (Val tt) s
                     [CallEditor (PyStr cur); ShowLetter new;
                      ShowDownload (PyStr new) (Some "download_button0")]
              else Run (Val tt)
                     (Py.store "cover_letter"
                        (PyDict (Py.store "text" (PyStr new) letter)) s)
                     [CallEditor (PyStr cur);
                      ShowSuccess "Cover letter updated successfully!";
                      ShowLetter new;
                      ShowDownload (PyStr new) (Some "download_button0")]).
  { assert (Hs : stored_letter s = Run (Val (PyDict letter)) s []).
    { unfold stored_letter. now rewrite bind_get, Hl. }
    unfold editor_tab. rewrite (bind_pure _ _ _ _ Hs).
    unfold Py.subscript. rewrite Ht.
    rewrite bind_lift_inr, bind_emit, He, bind_lift_inr.
    unfold Py.str_differs.
    destruct (String.eqb new cur); cbn [negb Py.set_item].
    - run_steps. reflexivity.
    - run_steps. reflexivity. }
  rewrite Hrun.
  destruct (String.eqb new cur) eqn:E; cbn [out session].
  - apply String.eqb_eq in E. subst new.
    repeat split; try congruence.
    unfold current_text. now rewrite Hl.
  - apply String.eqb_neq in E.
    repeat split; try congruence.
    unfold current_text. rewrite lookup_store_same. apply lookup_store_same.
Qed.

End Properties.

(* ================================================================== *)
(** * The pipeline on concrete inputs *)

Lemma manual_persona_education_witness :
  exists p : UserPersona,
    build_user (Stub.world [] Stub.no_env)
      (Stub.manual_form "https://www.linkedin.com/jobs/view/3544765357/"
         "Jane Doe" "Engineer at Acme - built X") Stub.fresh
    = Run (Val p) Stub.fresh []
    /\ education p = PyStr "PhD in Engineering"
    /\ name p = PyStr "Jane Doe"
    /\ experience p = PyStr "Engineer at Acme - built X".
Proof.
  apply (manual_persona_education (Stub.world [] Stub.no_env)
           (Stub.manual_form "https://www.linkedin.com/jobs/view/3544765357/"
              "Jane Doe" "Engineer at Acme - built X") Stub.fresh).
  - reflexivity.
  - discriminate.
  - discriminate.
Defined.

Lemma manual_missing_field_rejected_witness :
  build_user (Stub.world [] Stub.no_env)
    (Stub.manual_form "https://www.linkedin.com/jobs/view/3544765357/"
       EmptyString "Engineer at Acme - built X") Stub.fresh
  = Run Halt Stub.fresh [StError "Please fill in all required fields"]
  /\ generate (Stub.world [] Stub.no_env)
       (Stub.manual_form "https://www.linkedin.com/jobs/view/3544765357/"
          EmptyString "Engineer at Acme - built X") Stub.fresh
     = Run Halt Stub.fresh [StError "Please fill in all required fields"].
Proof.
  apply (manual_missing_field_rejected (Stub.world [] Stub.no_env)
           (Stub.manual_form "https://www.linkedin.com/jobs/view/3544765357/"
              EmptyString "Engineer at Acme - built X") Stub.fresh).
  - reflexivity.
  - left. reflexivity.
Defined.

Lemma credentials_resolution_witness :
  (exists reads rest,
      trace (scrape_profile (Stub.world Stub.saved_secrets Stub.full_env)
               "janedoe" Stub.fresh)
      = (reads ++ CallLinkedin (PyStr "doe@example.com") (PyStr "s3cret") :: rest)%list
      /\ none_of fetch_event reads = true)
  /\ none_of fetch_event
       (trace (scrape_profile (Stub.world [] Stub.no_env) "janedoe" Stub.fresh))
     = true.
Proof.
  split.
  - destruct (credentials_resolution (Stub.world Stub.saved_secrets Stub.full_env)
                "janedoe" Stub.fresh) as (_ & _ & H & _).
    apply H. reflexivity.
  - destruct (credentials_resolution (Stub.world [] Stub.no_env)
                "janedoe" Stub.fresh) as (_ & H & _).
    apply H. reflexivity.
Defined.

Lemma scrape_errors_distinguishable_witness :
  out (scrape_profile (Stub.login_refused "rate limited") "janedoe" Stub.fresh)
  = Raise (Exn Exception_ "Failed to scrape LinkedIn profile: rate limited")
  /\ (out (scrape_profile (Stub.world [] Stub.no_env) "janedoe" Stub.fresh)
      = Raise missing_credentials
      /\ none_of fetch_event
           (trace (scrape_profile (Stub.world [] Stub.no_env) "janedoe" Stub.fresh))
         = true).
Proof.
  split.
  - destruct (scrape_errors_distinguishable (Stub.login_refused "rate limited")
                "janedoe" Stub.fresh) as (H & _).
    apply (H (PyStr "doe@example.com") (PyStr "s3cret")
             (Exn (OtherError "ChallengeException") "rate limited")).
    + reflexivity.
    + reflexivity.
  - destruct (scrape_errors_distinguishable (Stub.world [] Stub.no_env)
                "janedoe" Stub.fresh) as (_ & H & _).
    apply H. reflexivity.
Defined.


Lemma editor_edit_witness :
  out (editor_tab (Stub.editing "Dear Ms Rossi,") (Stub.with_text "Dear Sir,"))
  = Val tt
  /\ ("Dear Ms Rossi," = "Dear Sir," ->
      session (editor_tab (Stub.editing "Dear Ms Rossi,") (Stub.with_text "Dear Sir,"))
      = Stub.with_text "Dear Sir,")
  /\ ("Dear Ms Rossi," <> "Dear Sir," ->
      session (editor_tab (Stub.editing "Dear Ms Rossi,") (Stub.with_text "Dear Sir,"))
      = Stub.with_text "Dear Ms Rossi,")
  /\ current_text
       (session (editor_tab (Stub.editing "Dear Ms Rossi,") (Stub.with_text "Dear Sir,")))
     = Some (PyStr "Dear Ms Rossi,").
Proof.
  apply (editor_edit (Stub.editing "Dear Ms Rossi,") (Stub.with_text "Dear Sir,")
           [("text", PyStr "Dear Sir,"); ("model", PyStr "gpt")]
           "Dear Sir," "Dear Ms Rossi,").
  - reflexivity.
  - reflexivity.
  - reflexivity.
Defined.

(** C4 as stated fails: no history of the texts can be read off the
    session state.  Two sessions that differ in their text only are
    the same session after the same edit, so the text that was
    replaced is not recorded. *)
Lemma history_not_kept :
  ~ exists history : dict -> list string,
      forall (s : dict) (cur new : string),
        current_text s = Some (PyStr cur) ->
        let s' := session (editor_tab (Stub.editing new) s) in
        (new = cur ->
         current_text s' = Some (PyStr cur)
         /\ length (history s') = length (history s))
        /\ (new <> cur ->
            current_text s' = Some (PyStr new)
            /\ history s' = (history s ++ [cur])%list).
Proof.
  intros [history H].
  destruct (H (Stub.with_text "first draft") "first draft" "final" eq_refl)
    as [_ H1].
  destruct (H (Stub.with_text "second draft") "second draft" "final" eq_refl)
    as [_ H2].
  destruct H1 as [_ H1]; [discriminate|].
  destruct H2 as [_ H2]; [discriminate|].
  change (session (editor_tab (Stub.editing "final") (Stub.with_text "first draft")))
    with (Stub.with_text "final") in H1.
  change (session (editor_tab (Stub.editing "final") (Stub.with_text "second draft")))
    with (Stub.with_text "final") in H2.
  rewrite H1 in H2. apply app_inj_tail in H2. destruct H2 as [_ H2].
  discriminate.
Qed.

(** C10 as stated fails in its last part: a failure of the profile
    fetch whose message contains "credentials not found" is wrapped,
    is not the missing-credentials error, and still gets the hint. *)
Lemma hint_for_fetch_failure :
  let w := Stub.login_refused "session credentials not found in cookie jar" in
  let i := Stub.linkedin_form "https://www.linkedin.com/jobs/view/3544765357/"
             "https://www.linkedin.com/in/janedoe/" in
  resolve_credentials w = Some (PyStr "doe@example.com", PyStr "s3cret")
  /\ out (build_user w i Stub.fresh)
     = Raise (Exn Exception_
                "Failed to scrape LinkedIn profile: session credentials not found in cookie jar")
  /\ out (build_user w i Stub.fresh) <> Raise missing_credentials
  /\ In (StInfo fallback_hint) (trace (generate w i Stub.fresh)).
Proof.
  repeat split.
  - discriminate.
  - vm_compute. intuition.
Qed.

(** C2 on the code: a job URL that the validator rejects is reported
    under the input field and is still handed to the posting scraper
    when the button is pressed; no error is raised for it and a letter
    is stored. *)
Theorem invalid_posting_url_is_fetched :
  let url := "https://example.com/jobs/1" in
  let r := main (Stub.world Stub.saved_secrets Stub.no_env)
             (Stub.linkedin_form url "https://www.linkedin.com/in/janedoe/") [] in
  validate_linkedin_url url "job" = false
  /\ In (StError "Please enter a valid LinkedIn job posting URL") (trace r)
  /\ In (CallScrapeJobPosting url) (trace r)
  /\ (forall msg, In (StError msg) (trace r) ->
        msg = "Please enter a valid LinkedIn job posting URL")
  /\ current_text (session r) = Some (PyStr "Dear Hiring Manager...").
Proof.
  repeat split.
  - vm_compute. intuition.
  - vm_compute. intuition.
  - vm_compute. intros msg H.
    repeat (destruct H as [H | H]; [try discriminate; now inversion H|]).
    destruct H.
Qed.

(* ================================================================== *)
(** * More on the URL validator *)

Lemma many1_head (cls : ascii -> bool) (s : string) :
  Lang (Many1 cls) s -> exists c t, s = String c t /\ cls c = true.
Proof. intros H. inversion H; subst; eauto. Qed.

(** Takes a membership in a concatenation of literals and options
    apart, down to the pieces of the string. *)
Ltac split_lang :=
  repeat match goal with
    | H : Lang (Cat _ _) _ |- _ => inversion H; subst; clear H
    | H : Lang (Lit _) _ |- _ => inversion H; subst; clear H
    | H : Lang (Opt _) _ |- _ => inversion H; subst; clear H
    end.

Lemma job_pattern_shape (p : string) :
  Lang job_pattern p ->
  exists (tls www : bool) (c : ascii) (t : string),
    p = linkedin_origin tls www ++ "jobs/view/" ++ String c t.
Proof.
  unfold job_pattern. intros H. split_lang;
    match goal with
    | H : Lang (Many1 _) _ |- _ =>
        destruct (many1_head _ _ H) as (c & t & -> & _)
    end;
    first [ exists false, false, c, t; reflexivity
          | exists false, true, c, t; reflexivity
          | exists true, false, c, t; reflexivity
          | exists true, true, c, t; reflexivity ].
Qed.

Lemma profile_pattern_shape (p : string) :
  Lang profile_pattern p ->
  exists (tls www : bool) (c : ascii) (t : string),
    p = linkedin_origin tls www ++ "in/" ++ String c t.
Proof.
  unfold profile_pattern. intros H. split_lang;
    match goal with
    | H : Lang (Many1 _) _ |- _ =>
        destruct (many1_head _ _ H) as (c & t & -> & _)
    end;
    first [ exists false, false, c, t; reflexivity
          | exists false, true, c, t; reflexivity
          | exists true, false, c, t; reflexivity
          | exists true, true, c, t; reflexivity ].
Qed.

Lemma pattern_for_nonempty (type p : string) :
  Lang (pattern_for type) p -> Str.is_empty p = false.
Proof.
  unfold pattern_for. destruct (String.eqb type "job"); intros H.
  - destruct (job_pattern_shape _ H) as (tls & www & c & t & ->).
    now destruct tls.
  - destruct (profile_pattern_shape _ H) as (tls & www & c & t & ->).
    now destruct tls.
Qed.

Lemma accepted_iff_prefix_in_language (url type : string) :
  validate_linkedin_url url type = true
  <-> exists pre rest, url = pre ++ rest /\ Lang (pattern_for type) pre.
Proof.
  unfold validate_linkedin_url. fold (pattern_for type). split.
  - destruct (Str.is_empty url); [discriminate|]. apply re_match_spec.
  - intros (pre & rest & -> & H).
    pose proof (pattern_for_nonempty _ _ H) as Hne.
    destruct pre as [|c pre]; [discriminate|]. cbn [Str.is_empty append].
    change (String c (pre ++ rest)) with (String c pre ++ rest).
    apply re_match_spec. eauto.
Qed.

(** X1. [validate_linkedin_url] accepts exactly the strings that begin
    with a word of the pattern of the given type: the job pattern for
    the type "job", the profile pattern for every other type. *)
Theorem validate_linkedin_url_spec (url type : string) :
  validate_linkedin_url url type = true
  <-> exists pre rest, url = pre ++ rest /\ Lang (pattern_for type) pre.
Proof. apply accepted_iff_prefix_in_language. Qed.

(** X2. Whatever the type asked for, an accepted URL is an http or
    https URL of the host linkedin.com, with or without www. *)
Theorem accepted_url_origin (url type : string) :
  validate_linkedin_url url type = true ->
  exists (tls www : bool) (rest : string),
    url = linkedin_origin tls www ++ rest.
Proof.
  intros H. apply accepted_iff_prefix_in_language in H.
  destruct H as (pre & rest & -> & H). unfold pattern_for in H.
  destruct (String.eqb type "job").
  - destruct (job_pattern_shape _ H) as (tls & www & c & t & ->).
    exists tls, www, ("jobs/view/" ++ String c t ++ rest).
    destruct tls, www; reflexivity.
  - destruct (profile_pattern_shape _ H) as (tls & www & c & t & ->).
    exists tls, www, ("in/" ++ String c t ++ rest).
    destruct tls, www; reflexivity.
Qed.

Lemma accepted_url_origin_witness :
  exists (tls www : bool) (rest : string),
    "https://www.linkedin.com/in/johndoe/" = linkedin_origin tls www ++ rest.
Proof.
  apply (accepted_url_origin "https://www.linkedin.com/in/johndoe/" "profile").
  reflexivity.
Defined.

(** X3. No URL is accepted both as a job posting and as a profile. *)
Theorem job_and_profile_urls_disjoint (url : string) :
  validate_linkedin_url url "job" = true ->
  validate_linkedin_url url "profile" = false.
Proof.
  intros H. apply accepted_iff_prefix_in_language in H.
  destruct H as (pre & rest & -> & H).
  change (pattern_for "job") with job_pattern in H.
  destruct (job_pattern_shape _ H) as (tls & www & c & t & ->).
  destruct tls, www; reflexivity.
Qed.

Lemma job_and_profile_urls_disjoint_witness :
  validate_linkedin_url "https://www.linkedin.com/jobs/view/3544765357/" "profile"
  = false.
Proof.
  apply (job_and_profile_urls_disjoint
           "https://www.linkedin.com/jobs/view/3544765357/").
  reflexivity.
Defined.

Lemma validate_linkedin_url_spec_witness :
  validate_linkedin_url ("http://linkedin.com/jobs/view/7" ++ "/apply?now") "job" = true.
Proof.
  apply (proj2 (validate_linkedin_url_spec
                  ("http://linkedin.com/jobs/view/7" ++ "/apply?now") "job")).
  exists "http://linkedin.com/jobs/view/7", "/apply?now". split; [reflexivity|].
  apply (posting_shape_in_language false false "7"). reflexivity.
Defined.

(* ================================================================== *)
(** * The profile identifier taken from the profile URL *)

Lemma contains_slash_cons (c : ascii) (t : string) :
  Str.contains "/" (String c t)
  = if Ascii.eqb "/" c then true else Str.contains "/" t.
Proof.
  cbn [Str.contains Str.strip_prefix]. destruct (Ascii.eqb "/" c); reflexivity.
Qed.

Lemma contains_slash_middle (a b : string) :
  Str.contains "/" (a ++ String "/" b) = true.
Proof.
  induction a as [|c a IH].
  - reflexivity.
  - change (String c a ++ String "/" b) with (String c (a ++ String "/" b)).
    rewrite contains_slash_cons, IH. now destruct (Ascii.eqb "/" c).
Qed.

Lemma last_segment_after_slash (a id : string) :
  Str.contains "/" id = false ->
  Str.last_segment (a ++ String "/" id) = id.
Proof.
  intros Hid. induction a as [|c a IH].
  - cbn [append Str.last_segment]. now rewrite Hid.
  - change (String c a ++ String "/" id) with (String c (a ++ String "/" id)).
    cbn [Str.last_segment]. now rewrite contains_slash_middle.
Qed.

Lemma rstrip_slashes (z : string) :
  all_slashes z = true -> Str.rstrip_slash z = EmptyString.
Proof.
  induction z as [|c z IH]; cbn [all_slashes Str.rstrip_slash]; trivial.
  intros H. apply andb_true_iff in H. destruct H as [Hc Hz].
  now rewrite (IH Hz), Hc.
Qed.

Lemma rstrip_slash_app (s z : string) :
  all_slashes z = true -> Str.rstrip_slash (s ++ z) = Str.rstrip_slash s.
Proof.
  intros Hz. induction s as [|c s IH].
  - now apply rstrip_slashes.
  - cbn [append Str.rstrip_slash]. now rewrite IH.
Qed.

Lemma rstrip_slash_clean (id : string) :
  id <> EmptyString -> Str.contains "/" id = false -> Str.rstrip_slash id = id.
Proof.
  induction id as [|c t IH]; [congruence|]. intros _ H.
  rewrite contains_slash_cons in H.
  destruct (Ascii.eqb "/" c) eqn:Ec; [discriminate|].
  cbn [Str.rstrip_slash]. destruct t as [|c' t'].
  - cbn. rewrite Ascii.eqb_sym. now rewrite Ec.
  - rewrite IH by (trivial; discriminate). reflexivity.
Qed.

Lemma rstrip_slash_keeps (a b : string) :
  b <> EmptyString -> Str.rstrip_slash b = b -> Str.rstrip_slash (a ++ b) = a ++ b.
Proof.
  intros Hb Hr. induction a as [|c a IH]; [exact Hr|].
  cbn [append Str.rstrip_slash]. rewrite IH.
  destruct (a ++ b) eqn:E; [|reflexivity].
  destruct a; [cbn in E; congruence | discriminate].
Qed.

(** X4. The profile identifier the handler passes on,
    [profile_url.rstrip('/').split('/')[-1]], never contains a slash. *)
Theorem profile_id_has_no_slash (profile_url : string) :
  Str.contains "/" (Str.last_segment (Str.rstrip_slash profile_url)) = false.
Proof.
  generalize (Str.rstrip_slash profile_url). intros s.
  induction s as [|c t IH]; [reflexivity|].
  cbn [Str.last_segment].
  destruct (Str.contains "/" t) eqn:Ht; [exact IH|].
  destruct (Ascii.eqb c "/") eqn:Ec; [exact Ht|].
  rewrite contains_slash_cons, Ascii.eqb_sym, Ec. exact Ht.
Qed.

(** X5. For a URL that ends with a slash, a non-empty identifier free
    of slashes, and any number of trailing slashes, the profile
    identifier is that last path segment. *)
Theorem profile_id_is_last_segment (base id slashes : string) :
  id <> EmptyString ->
  Str.contains "/" id = false ->
  all_slashes slashes = true ->
  Str.last_segment (Str.rstrip_slash (base ++ String "/" id ++ slashes)) = id.
Proof.
  intros Hne Hid Hz.
  replace (base ++ String "/" id ++ slashes)
    with ((base ++ String "/" id) ++ slashes)
    by (rewrite StrFacts.app_assoc; reflexivity).
  rewrite rstrip_slash_app by exact Hz.
  rewrite (rstrip_slash_keeps base (String "/" id)).
  - now apply last_segment_after_slash.
  - discriminate.
  - cbn [Str.rstrip_slash]. rewrite (rstrip_slash_clean id Hne Hid).
    destruct id; [congruence|reflexivity].
Qed.

Lemma profile_id_is_last_segment_witness :
  Str.last_segment
    (Str.rstrip_slash ("https://www.linkedin.com/in" ++ String "/" "jane-doe" ++ "//"))
  = "jane-doe".
Proof.
  apply (profile_id_is_last_segment "https://www.linkedin.com/in" "jane-doe" "//").
  - discriminate.
  - reflexivity.
  - reflexivity.
Defined.

(* ================================================================== *)
(** * Blocks that avoid a kind of event *)

Section Avoids.

Variable p : event -> bool.

Lemma avoids_ret {A} (a : A) : avoids p (ret a).
Proof. intros s; reflexivity. Qed.

Lemma avoids_raise {A} (e : exn) : avoids p (@raise A e).
Proof. intros s; reflexivity. Qed.

Lemma avoids_halt {A} : avoids p (@halt A).
Proof. intros s; reflexivity. Qed.

Lemma avoids_lift {A} (r : exn + A) : avoids p (lift r).
Proof. destruct r; [apply avoids_raise | apply avoids_ret]. Qed.

Lemma avoids_get_session : avoids p get_session.
Proof. intros s; reflexivity. Qed.

Lemma avoids_set_session k v : avoids p (set_session k v).
Proof. intros s; reflexivity. Qed.

Lemma avoids_emit (e : event) : p e = false -> avoids p (emit e).
Proof. intros H s. cbn. now rewrite H. Qed.

Lemma avoids_bind {A B} (m : M A) (f : A -> M B) :
  avoids p m -> (forall a, avoids p (f a)) -> avoids p (bind m f).
Proof.
  intros Hm Hf s. unfold bind. specialize (Hm s).
  destruct (out (m s)) as [a| |]; cbn [trace]; trivial.
  now rewrite none_of_app, Hm, (Hf a).
Qed.

Lemma avoids_try {A} (m : M A) (h : exn -> M A) :
  avoids p m -> (forall e, avoids p (h e)) -> avoids p (try_except m h).
Proof.
  intros Hm Hh s. unfold try_except. specialize (Hm s).
  destruct (out (m s)) as [a|e|]; cbn [trace]; trivial.
  now rewrite none_of_app, Hm, (Hh e).
Qed.

End Avoids.

(** Splits a goal about a block along its binds, handlers and
    conditionals. *)
Ltac block_steps :=
  repeat first
    [ apply avoids_ret | apply avoids_raise | apply avoids_halt
    | apply avoids_lift | apply avoids_get_session | apply avoids_set_session
    | apply avoids_emit; reflexivity
    | apply avoids_bind; [|intro]
    | apply avoids_try; [|intro]
    | match goal with
      | |- avoids _ (if ?c then _ else _) => destruct c
      | |- avoids _ (match ?x with _ => _ end) => destruct x
      end ].

Lemma bind_run {A B} (m : M A) (f : A -> M B) s a s' t :
  m s = Run (Val a) s' t ->
  bind m f s = Run (out (f a s')) (session (f a s')) (t ++ trace (f a s')).
Proof. intros H. unfold bind. now rewrite H. Qed.

Lemma subscript_inv (v : pyval) (k : string) (x : pyval) :
  Py.subscript v k = inr x -> exists d, v = PyDict d /\ Py.lookup k d = Some x.
Proof.
  destruct v; cbn; try discriminate.
  destruct (Py.lookup k d) eqn:E; [|discriminate].
  intros H; inversion H; subst. eauto.
Qed.

Lemma subscript_text_error (v : pyval) (e : exn) :
  Py.subscript v "text" = inl e ->
  Str.contains "credentials not found" (exn_msg e) = false.
Proof.
  destruct v; cbn; try (intros H; inversion H; reflexivity).
  destruct (Py.lookup "text" d); [discriminate|].
  intros H; inversion H; reflexivity.
Qed.

Lemma comprehension_fails {A B} (f : A -> exn + B) (l : list A) (x : A) (e : exn) :
  In x l -> f x = inl e -> exists e', comprehension f l = inl e'.
Proof.
  induction l as [|y l IH]; [contradiction|]. intros [-> | Hin] Hx; cbn.
  - rewrite Hx. eauto.
  - destruct (f y); [eauto|]. destruct (IH Hin Hx) as [e' ->]. eauto.
Qed.

Section MoreProperties.

Variable env : Env.

#[local] Arguments Str.contains : simpl never.
#[local] Arguments Py.subscript : simpl never.
#[local] Arguments Py.store : simpl never.
#[local] Arguments append : simpl never.

(** Unfolds the blocks of [main] down to the primitive steps. *)
Ltac open_blocks :=
  unfold main, generate, build_user, scrape_profile, credentials,
    read_secret, os_getenv, fetch_and_normalize, fetch_and_query,
    store_and_show, report, editor_tab, show_stored_letter, stored_letter,
    url_feedback, init_session, download_button.

(** ** The session state across a run of [main] *)

Lemma init_session_run (s : dict) :
  init_session s = Run (Val tt) (initialised s) [].
Proof.
  unfold init_session, initialised. rewrite bind_get.
  destruct (Py.lookup "cover_letter" s) as [v|].
  - rewrite bind_ret, bind_get.
    destruct (Py.lookup "editor_active" s); reflexivity.
  - rewrite bind_set, bind_get.
    destruct (Py.lookup "editor_active" (Py.store "cover_letter" PyNone s));
      reflexivity.
Qed.

Lemma initialised_letter (s : dict) :
  Py.lookup "cover_letter" (initialised s)
  = Some (match Py.lookup "cover_letter" s with
          | Some v => v
          | None => PyNone
          end).
Proof.
  unfold initialised.
  destruct (Py.lookup "cover_letter" s) as [v|] eqn:E.
  - destruct (Py.lookup "editor_active" s); trivial.
    rewrite lookup_store_other by discriminate. exact E.
  - destruct (Py.lookup "editor_active" (Py.store "cover_letter" PyNone s));
      rewrite ?lookup_store_other by discriminate; apply lookup_store_same.
Qed.

Lemma initialised_flag (s : dict) :
  Py.lookup "editor_active" (initialised s)
  = Some (match Py.lookup "editor_active" s with
          | Some v => v
          | None => PyBool false
          end).
Proof.
  unfold initialised.
  destruct (Py.lookup "cover_letter" s) as [v|].
  - destruct (Py.lookup "editor_active" s) eqn:E; trivial.
    apply lookup_store_same.
  - rewrite lookup_store_other by discriminate.
    destruct (Py.lookup "editor_active" s) eqn:E.
    + now rewrite lookup_store_other by discriminate.
    + apply lookup_store_same.
Qed.

(** X6. The initialisation at the top of [main] emits nothing and ends
    with both keys set: [cover_letter] and [editor_active] keep the
    value they have and get [None] and [False] when they are missing.
    Whether a letter is ready is as before, and initialising twice is
    the same as once. *)
Theorem init_session_completes (s : dict) :
  let r := init_session s in
  out r = Val tt
  /\ trace r = []
  /\ Py.lookup "cover_letter" (session r)
     = Some (match Py.lookup "cover_letter" s with
             | Some v => v
             | None => PyNone
             end)
  /\ Py.lookup "editor_active" (session r)
     = Some (match Py.lookup "editor_active" s with
             | Some v => v
             | None => PyBool false
             end)
  /\ letter_ready (session r) = letter_ready s
  /\ session (init_session (session r)) = session r.
Proof.
  intros r. subst r. rewrite !init_session_run. cbn [out session trace].
  repeat split.
  - apply initialised_letter.
  - apply initialised_flag.
  - unfold letter_ready. rewrite initialised_letter.
    now destruct (Py.lookup "cover_letter" s).
  - unfold initialised at 1.
    now rewrite initialised_letter, initialised_flag.
Qed.

(** X7. In a run of [main] that starts with no letter ready, the
    editor is never called, whatever the handler does in that run. *)
Theorem no_editor_without_letter (i : inputs) (s : dict) :
  letter_ready s = false ->
  none_of editor_event (trace (main env i s)) = true.
Proof.
  intros H. unfold main. rewrite bind_get. cbv zeta. rewrite H.
  match goal with
  | |- none_of ?p (trace (?m s)) = true =>
      cut (avoids p m); [intros Hc; apply Hc|]
  end.
  open_blocks. block_steps.
Qed.

(** ** Runs of the generate handler *)

Lemma build_user_run (i : inputs) (s : dict) (user : UserPersona) :
  out (build_user env i s) = Val user ->
  build_user env i s = Run (Val user) s (trace (build_user env i s)).
Proof.
  intros Ho. destruct (inert_build_user env i s) as [Hs _].
  rewrite <- (run_eta (build_user env i s)) at 1. now rewrite Ho, Hs.
Qed.

Lemma fetch_and_query_run (i : inputs) (user : UserPersona) (s : dict)
      (job response : pyval) :
  scrape_job_posting env (Form.job_url i) = inr job ->
  query env user job template_path = inr response ->
  fetch_and_query env i user s
  = Run (Val response) s
      [CallScrapeJobPosting (Form.job_url i); CallQuery user job template_path].
Proof.
  intros Hj Hq. unfold fetch_and_query.
  now rewrite bind_emit, Hj, bind_lift_inr, bind_emit, Hq.
Qed.

(** X9. When the persona is built, the posting scraped, the backend
    has answered and the answer has a text that is a string, the
    handler stores the answer under [cover_letter], sets
    [editor_active], shows the text and a download of it, and asks for
    a rerun; these are its only effects after the persona. *)
Theorem generate_success (i : inputs) (s : dict) (user : UserPersona)
        (job response : pyval) (text : string) :
  out (build_user env i s) = Val user ->
  scrape_job_posting env (Form.job_url i) = inr job ->
  query env user job template_path = inr response ->
  Py.subscript response "text" = inr (PyStr text) ->
  generate env i s
  = Run Halt
      (Py.store "editor_active" (PyBool true) (Py.store "cover_letter" response s))
      (trace (build_user env i s)
         ++ [CallScrapeJobPosting (Form.job_url i);
             CallQuery user job template_path;
             ShowSuccess "Your cover letter is ready!";
             ShowLetter text;
             ShowDownload (PyStr text) (Some "download_button1");
             StRerun])%list.
Proof.
  intros Ho Hj Hq Ht. unfold generate, try_except.
  rewrite (bind_run _ _ _ _ _ _ (build_user_run i s user Ho)).
  rewrite (bind_run _ _ _ _ _ _ (fetch_and_query_run i user s job response Hj Hq)).
  unfold store_and_show.
  rewrite !bind_set, bind_emit, Ht, bind_lift_inr, bind_emit, bind_lift_inr.
  unfold download_button. rewrite !bind_emit.
  reflexivity.
Qed.

(** X10. The answer of the backend is stored before it is looked at:
    when it has no text (it is not a dict, or has no such key), the
    handler has already put it under [cover_letter] and set
    [editor_active]; it then reports the error, shows no letter and
    asks for no rerun. *)
Theorem generate_stores_before_reading (i : inputs) (s : dict)
        (user : UserPersona) (job response : pyval) (e : exn) :
  out (build_user env i s) = Val user ->
  scrape_job_posting env (Form.job_url i) = inr job ->
  query env user job template_path = inr response ->
  Py.subscript response "text" = inl e ->
  generate env i s
  = Run (Val tt)
      (Py.store "editor_active" (PyBool true) (Py.store "cover_letter" response s))
      (trace (build_user env i s)
         ++ [CallScrapeJobPosting (Form.job_url i);
             CallQuery user job template_path;
             ShowSuccess "Your cover letter is ready!";
             StError ("An error occurred: " ++ exn_msg e)])%list.
Proof.
  intros Ho Hj Hq Ht. unfold generate, try_except.
  rewrite (bind_run _ _ _ _ _ _ (build_user_run i s user Ho)).
  rewrite (bind_run _ _ _ _ _ _ (fetch_and_query_run i user s job response Hj Hq)).
  unfold store_and_show.
  rewrite !bind_set, bind_emit, Ht, bind_lift_inl.
  cbn [out session trace]. unfold report.
  rewrite bind_emit, (subscript_text_error _ _ Ht).
  cbn [out session trace ret app]. now rewrite <- List.app_assoc.
Qed.

Lemma download_refused (data : pyval) (key : option string) (s : dict) :
  (forall t, data <> PyStr t) ->
  exists e,
    download_button data key s = Run (Raise e) s []
    /\ Str.contains "credentials not found" (exn_msg e) = false.
Proof.
  intros H. destruct data; try (eexists; split; reflexivity).
  now destruct (H s0).
Qed.

(** X21. When the answer of the backend has a text that is not a
    string, the handler has stored the answer and set [editor_active],
    has shown the success message and the text as written out, and
    then the download raises: the handler reports that error and asks
    for no rerun. *)
Theorem generate_text_not_a_string (i : inputs) (s : dict) (user : UserPersona)
        (job response text : pyval) :
  out (build_user env i s) = Val user ->
  scrape_job_posting env (Form.job_url i) = inr job ->
  query env user job template_path = inr response ->
  Py.subscript response "text" = inr text ->
  (forall t, text <> PyStr t) ->
  exists msg,
    generate env i s
    = Run (Val tt)
        (Py.store "editor_active" (PyBool true) (Py.store "cover_letter" response s))
        (trace (build_user env i s)
           ++ [CallScrapeJobPosting (Form.job_url i);
               CallQuery user job template_path;
               ShowSuccess "Your cover letter is ready!";
               ShowLetter (fmt env text);
               StError ("An error occurred: " ++ msg)])%list.
Proof.
  intros Ho Hj Hq Ht Hns.
  set (stored := Py.store "editor_active" (PyBool true)
                   (Py.store "cover_letter" response s)).
  destruct (download_refused text (Some "download_button1") stored Hns)
    as (e & Hd & Hc).
  exists (exn_msg e). unfold generate, try_except.
  rewrite (bind_run _ _ _ _ _ _ (build_user_run i s user Ho)).
  rewrite (bind_run _ _ _ _ _ _ (fetch_and_query_run i user s job response Hj Hq)).
  unfold store_and_show.
  rewrite !bind_set, bind_emit, Ht, bind_lift_inr, bind_emit, bind_lift_inr.
  fold stored.
  rewrite (bind_raise _ _ _ e) by (rewrite Hd; reflexivity).
  rewrite Hd. cbn [out session trace]. unfold report.
  rewrite bind_emit, Hc. cbn [out session trace ret app].
  now rewrite <- List.app_assoc.
Qed.

(** X11. On the LinkedIn tab, an empty job URL or an empty profile
    URL makes the handler report which one is missing and leave
    [main]: no secret is read, nothing is fetched, the session is as
    it was.  The job URL is looked at first. *)
Theorem linkedin_tab_requires_urls (i : inputs) (s : dict) :
  Form.tab1_active i = true ->
  Form.job_url i = EmptyString \/ Form.profile_url i = EmptyString ->
  generate env i s
  = Run Halt s
      [StError (if Str.is_empty (Form.job_url i)
                then "Please enter a job posting URL"
                else "Please enter your LinkedIn profile URL")].
Proof.
  intros Htab Hmiss.
  assert (B : build_user env i s
              = Run Halt s
                  [StError (if Str.is_empty (Form.job_url i)
                            then "Please enter a job posting URL"
                            else "Please enter your LinkedIn profile URL")]).
  { unfold build_user. rewrite Htab.
    destruct (Str.is_empty (Form.job_url i)) eqn:Ej; [reflexivity|].
    destruct Hmiss as [H | H].
    - rewrite H in Ej. discriminate.
    - rewrite H. reflexivity. }
  unfold generate, try_except.
  rewrite (bind_halt (build_user env i)); rewrite B; reflexivity.
Qed.

(** ** A stored letter that has no text *)

Lemma url_feedback_run (i : inputs) (s : dict) :
  url_feedback i s = Run (Val tt) s (trace (url_feedback i [])).
Proof.
  unfold url_feedback.
  destruct (negb (Str.is_empty (Form.job_url i))
            && negb (validate_linkedin_url (Form.job_url i) "job"));
    destruct (negb (Str.is_empty (Form.profile_url i))
              && negb (validate_linkedin_url (Form.profile_url i) "profile"));
    reflexivity.
Qed.

(** X12. When the stored letter is not [None] and has no text to read
    (the handler can leave such a value behind), every run of [main]
    raises that error while it displays the first tab: the editor and
    the handler are not reached, so no press of the button can replace
    the stored value. *)
Theorem textless_letter_blocks_main (i : inputs) (s : dict)
        (letter : pyval) (e : exn) :
  Py.lookup "cover_letter" s = Some letter ->
  letter <> PyNone ->
  Py.subscript letter "text" = inl e ->
  main env i s
  = Run (Raise e) (initialised s)
      (trace (url_feedback i []) ++ [ShowSuccess "Your cover letter is ready!"])%list.
Proof.
  intros Hl Hn Ht. unfold main. rewrite bind_get. cbv zeta.
  rewrite (bind_run _ _ _ _ _ _ (init_session_run s)).
  rewrite (bind_run _ _ _ _ _ _ (url_feedback_run i (initialised s))).
  assert (Hl' : Py.lookup "cover_letter" (initialised s) = Some letter).
  { now rewrite initialised_letter, Hl. }
  assert (Hr : letter_ready (initialised s) = true).
  { unfold letter_ready. rewrite Hl'. destruct letter; congruence. }
  assert (Hshow : forall key,
             show_stored_letter env key (initialised s)
             = Run (Raise e) (initialised s)
                 [ShowSuccess "Your cover letter is ready!"]).
  { intros key. unfold show_stored_letter. rewrite bind_get, Hr, bind_emit.
    assert (Hs : stored_letter (initialised s)
                 = Run (Val letter) (initialised s) []).
    { unfold stored_letter. now rewrite bind_get, Hl'. }
    rewrite (bind_pure _ _ _ _ Hs), Ht, bind_lift_inl. reflexivity. }
  rewrite (bind_raise _ _ _ e) by now rewrite Hshow.
  rewrite Hshow. cbn [out session trace app]. reflexivity.
Qed.

(** ** Profiles that cannot be normalised *)

Lemma credentials_resolved (s : dict) (c : pyval * pyval) :
  resolve_credentials env = Some c ->
  out (credentials env s) = Val c /\ session (credentials env s) = s.
Proof.
  intros Hres. split; [|apply (inert_credentials env s)].
  destruct (resolve_cases env) as [(c' & Hsec & Hres') | (Hsec & Hres')].
  - rewrite (credentials_from_secrets env s c' Hsec). cbn [out]. congruence.
  - destruct (credentials_from_environment env s Hsec) as (reads & Hc & _).
    rewrite Hc. cbn [out]. rewrite <- Hres', Hres. reflexivity.
Qed.

Lemma credentials_avoid_skills : avoids skills_event (credentials env).
Proof. unfold credentials, read_secret, os_getenv. block_steps. Qed.

Lemma scrape_profile_of_failure (id : string) (s : dict) (email pwd : pyval)
      (e : exn) (t : list event) :
  resolve_credentials env = Some (email, pwd) ->
  fetch_and_normalize env email pwd id s = Run (Raise e) s t ->
  none_of skills_event t = true ->
  let r := scrape_profile env id s in
  out r = Raise (Exn Exception_ (scrape_prefix ++ exn_msg e))
  /\ session r = s
  /\ none_of skills_event (trace r) = true.
Proof.
  intros Hres Hf Ht r. subst r.
  destruct (credentials_resolved s _ Hres) as [Hc Hs].
  rewrite (scrape_profile_run env id s _ Hc). cbv zeta. cbn [fst snd].
  rewrite Hs. unfold try_except. rewrite Hf. cbn [out session trace raise].
  repeat split.
  rewrite !none_of_app, Ht, (credentials_avoid_skills s). reflexivity.
Qed.

(** X13. When the profile that comes back has no first name to read
    (an empty dict, as the client gives for a profile it cannot load),
    [scrape_profile] fails with that error behind the scrape prefix,
    leaves the session alone and never asks for the skills. *)
Theorem unreadable_profile_fails_scrape (id : string) (s : dict)
        (email pwd : pyval) (api : Api) (profile : pyval) (e : exn) :
  resolve_credentials env = Some (email, pwd) ->
  Linkedin env email pwd = inr api ->
  get_profile api id = inr profile ->
  Py.subscript profile "firstName" = inl e ->
  let r := scrape_profile env id s in
  out r = Raise (Exn Exception_ (scrape_prefix ++ exn_msg e))
  /\ session r = s
  /\ none_of skills_event (trace r) = true.
Proof.
  intros Hres HL HP Hfirst.
  apply (scrape_profile_of_failure id s email pwd e
           [CallLinkedin email pwd; CallGetProfile id]); trivial.
  unfold fetch_and_normalize.
  now rewrite bind_emit, HL, bind_lift_inr, bind_emit, HP, bind_lift_inr,
    Hfirst, bind_lift_inl.
Qed.

Lemma complete_education_iff (edu : pyval) :
  complete_education edu = true
  <-> exists str, education_entry env edu = inr (PyStr str).
Proof.
  split.
  - destruct edu as [| | | | |d]; try discriminate. cbn [complete_education].
    destruct (Py.lookup "schoolName" d) as [school|] eqn:E1; [|discriminate].
    destruct (Py.lookup "timePeriod" d) as [[| | | | |period]|] eqn:E2;
      try discriminate.
    destruct (Py.lookup "startDate" period) as [[| | | | |start]|] eqn:E3;
      try discriminate.
    destruct (Py.lookup "year" start) as [year|] eqn:E4; [|discriminate].
    intros _. unfold education_entry, and_then, Py.subscript, Py.get.
    rewrite E1, E2, E3, E4.
    destruct (Py.lookup "description" d); eexists; reflexivity.
  - intros [str H]. unfold education_entry in H.
    apply and_then_inv in H. destruct H as (school & H1 & H).
    apply and_then_inv in H. destruct H as (period & H2 & H).
    apply and_then_inv in H. destruct H as (start & H3 & H).
    apply and_then_inv in H. destruct H as (year & H4 & _).
    apply subscript_inv in H1. destruct H1 as (d & -> & E1).
    apply subscript_inv in H2. destruct H2 as (d' & Hd & E2).
    inversion Hd; subst d'.
    apply subscript_inv in H3. destruct H3 as (pd & -> & E3).
    apply subscript_inv in H4. destruct H4 as (sd & -> & E4).
    cbn [complete_education]. now rewrite E1, E2, E3, E4.
Qed.

(** X14. An education entry is turned into a string exactly when it is
    a dict with a school name and a year under timePeriod.startDate;
    the description is never needed. *)
Theorem education_entry_succeeds_iff (edu : pyval) :
  complete_education edu = true
  <-> exists str, education_entry env edu = inr (PyStr str).
Proof. apply complete_education_iff. Qed.

Lemma forallb_false_In {A} (f : A -> bool) (l : list A) :
  forallb f l = false -> exists x, In x l /\ f x = false.
Proof.
  induction l as [|y l IH]; [discriminate|]. cbn [forallb].
  destruct (f y) eqn:E.
  - intros H. destruct (IH H) as (x & Hin & Hx). exists x. split; [now right|trivial].
  - intros _. exists y. split; [now left|trivial].
Qed.

(** X15. One incomplete education entry makes the whole of
    [scrape_profile] fail, whatever else the profile holds: the error
    of that list is raised behind the scrape prefix and the skills are
    never asked for. *)
Theorem incomplete_education_fails_scrape (id : string) (s : dict)
        (email pwd : pyval) (api : Api) (profile first last : pyval)
        (entries : list pyval) :
  resolve_credentials env = Some (email, pwd) ->
  Linkedin env email pwd = inr api ->
  get_profile api id = inr profile ->
  Py.subscript profile "firstName" = inr first ->
  Py.subscript profile "lastName" = inr last ->
  entries_of profile "education" = inr entries ->
  forallb complete_education entries = false ->
  let r := scrape_profile env id s in
  (exists e, comprehension (education_entry env) entries = inl e
             /\ out r = Raise (Exn Exception_ (scrape_prefix ++ exn_msg e)))
  /\ session r = s
  /\ none_of skills_event (trace r) = true.
Proof.
  intros Hres HL HP Hfirst Hlast He Hbad.
  destruct (forallb_false_In _ _ Hbad) as (x & Hin & Hx).
  assert (Hfail : exists e0, education_entry env x = inl e0).
  { destruct (education_entry env x) as [e0|v] eqn:E; [eauto|].
    destruct (education_entry_str env _ _ E) as [str ->].
    assert (complete_education x = true)
      by (apply complete_education_iff; eauto).
    congruence. }
  destruct Hfail as [e0 He0].
  destruct (comprehension_fails _ _ _ _ Hin He0) as [e Hc].
  assert (Hrun : fetch_and_normalize env email pwd id s
                 = Run (Raise e) s [CallLinkedin email pwd; CallGetProfile id]).
  { unfold fetch_and_normalize.
    rewrite bind_emit, HL, bind_lift_inr, bind_emit, HP, bind_lift_inr,
      Hfirst, bind_lift_inr, Hlast, bind_lift_inr, He.
    cbn [and_then]. now rewrite Hc, bind_lift_inl. }
  destruct (scrape_profile_of_failure id s email pwd e _ Hres Hrun eq_refl)
    as (Ho & Hs & Ht).
  cbv zeta. eauto.
Qed.

(** ** What a scraped persona holds *)

Ltac invert_steps H :=
  repeat first
    [ apply lift_inv_val in H
    | let a := fresh "a" in
      let Ha := fresh "Ha" in
      apply bind_inv_val in H; destruct H as (a & Ha & H);
      try apply lift_inv_val in Ha ].

Lemma fetch_and_normalize_fields email pwd id s (p : UserPersona) :
  out (fetch_and_normalize env email pwd id s) = Val p ->
  exists api profile raw first last,
    Linkedin env email pwd = inr api
    /\ get_profile api id = inr profile
    /\ get_profile_skills api id = inr raw
    /\ Py.subscript profile "firstName" = inr first
    /\ Py.subscript profile "lastName" = inr last
    /\ name p = PyStr (fmt env first ++ " " ++ fmt env last)
    /\ (exists entries xs,
           entries_of profile "experience" = inr entries
           /\ experience p = PyList xs
           /\ Forall2 (fun x y => experience_entry env x = inr y) entries xs)
    /\ (exists entries xs,
           entries_of profile "certifications" = inr entries
           /\ certifications p = PyList xs
           /\ Forall2 (fun x y => certification_entry env x = inr y) entries xs)
    /\ (exists items xs,
           Py.iterate raw = inr items
           /\ skills p = PyList xs
           /\ Forall2 (fun x y => Py.subscript x "name" = inr y) items xs).
Proof.
  unfold fetch_and_normalize. intros H. invert_steps H.
  inversion H; subst p. cbn [name experience certifications skills].
  repeat match goal with
    | E : and_then _ _ = inr _ |- _ =>
        apply and_then_inv in E; destruct E as (? & ? & E);
        apply comprehension_forall in E
    end.
  do 5 eexists. repeat (split; [eassumption|]).
  split; [reflexivity|].
  split; [|split]; do 2 eexists; (split; [eassumption|]); split;
    try reflexivity; assumption.
Qed.

(** X16. In a persona that [scrape_profile] returns, the name is the
    first and the last name with a space between them; experience and
    certifications hold, in order, the string made of each entry of
    the profile; the skills hold, in order, the [name] of each item of
    the skills answer, as it is. *)
Theorem scraped_persona_fields (id : string) (s : dict) (p : UserPersona) :
  out (scrape_profile env id s) = Val p ->
  exists email pwd api profile raw first last,
    resolve_credentials env = Some (email, pwd)
    /\ Linkedin env email pwd = inr api
    /\ get_profile api id = inr profile
    /\ get_profile_skills api id = inr raw
    /\ Py.subscript profile "firstName" = inr first
    /\ Py.subscript profile "lastName" = inr last
    /\ name p = PyStr (fmt env first ++ " " ++ fmt env last)
    /\ (exists entries xs,
           entries_of profile "experience" = inr entries
           /\ experience p = PyList xs
           /\ Forall2 (fun x y => experience_entry env x = inr y) entries xs)
    /\ (exists entries xs,
           entries_of profile "certifications" = inr entries
           /\ certifications p = PyList xs
           /\ Forall2 (fun x y => certification_entry env x = inr y) entries xs)
    /\ (exists items xs,
           Py.iterate raw = inr items
           /\ skills p = PyList xs
           /\ Forall2 (fun x y => Py.subscript x "name" = inr y) items xs).
Proof.
  intros Hout.
  pose proof (scrape_profile_cases env id s) as H. cbv zeta in H.
  destruct (resolve_credentials env) as [[email pwd]|].
  - destruct H as [_ H].
    destruct (out (fetch_and_normalize env email pwd id s)) as [p'| |] eqn:Hf;
      rewrite H in Hout; try discriminate.
    inversion Hout; subst p'.
    destruct (fetch_and_normalize_fields _ _ _ _ _ Hf)
      as (api & profile & raw & first & last & Hrest).
    exists email, pwd, api, profile, raw, first, last. split; [reflexivity|].
    exact Hrest.
  - destruct H as [H _]. rewrite H in Hout. discriminate.
Qed.

(** ** The editor and the rest of the session *)

Lemma editor_tab_run (s : dict) (letter : dict) (cur new : string) :
  Py.lookup "cover_letter" s = Some (PyDict letter) ->
  Py.lookup "text" letter = Some (PyStr cur) ->
  create_editing_interface env (PyStr cur) = inr new ->
  session (editor_tab env s)
  = if String.eqb new cur then s
    else Py.store "cover_letter" (PyDict (Py.store "text" (PyStr new) letter)) s.
Proof.
  intros Hl Ht He.
  assert (Hs : stored_letter s = Run (Val (PyDict letter)) s []).
  { unfold stored_letter. now rewrite bind_get, Hl. }
  unfold editor_tab. rewrite (bind_pure _ _ _ _ Hs).
  unfold Py.subscript. rewrite Ht.
  rewrite bind_lift_inr, bind_emit, He, bind_lift_inr.
  unfold Py.str_differs.
  destruct (String.eqb new cur); cbn [negb Py.set_item]; run_steps; reflexivity.
Qed.

(** X17. An edit touches the text of the stored letter and nothing
    else: every other entry of the letter (what the backend sent along
    with the text) and every other key of the session state read as
    before. *)
Theorem editor_keeps_the_rest (s : dict) (letter : dict) (cur new k : string) :
  Py.lookup "cover_letter" s = Some (PyDict letter) ->
  Py.lookup "text" letter = Some (PyStr cur) ->
  create_editing_interface env (PyStr cur) = inr new ->
  let s' := session (editor_tab env s) in
  (k <> "cover_letter" -> Py.lookup k s' = Py.lookup k s)
  /\ (k <> "text" ->
      exists letter',
        Py.lookup "cover_letter" s' = Some (PyDict letter')
        /\ Py.lookup k letter' = Py.lookup k letter).
Proof.
  intros Hl Ht He s'. subst s'. rewrite (editor_tab_run s letter cur new Hl Ht He).
  destruct (String.eqb new cur); split; intros Hk.
  - reflexivity.
  - eauto.
  - now apply lookup_store_other.
  - eexists. split; [apply lookup_store_same|]. now apply lookup_store_other.
Qed.

(** ** Credentials saved from the settings tab *)

(** X18. With the secrets that the settings tab writes, whatever was
    typed in the two fields (nothing at all included), [scrape_profile]
    never raises the missing-credentials error and never looks at the
    environment: it logs in with the two saved strings. *)
Theorem saved_settings_are_used (f : settings_form) (id : string) (s : dict) :
  secrets env = new_secrets f ->
  let r := scrape_profile env id s in
  out r <> Raise missing_credentials
  /\ none_of environment_event (trace r) = true
  /\ exists rest,
       trace r
       = ([ReadSecret "LINKEDIN_EMAIL"; ReadSecret "LINKEDIN_PASSWORD";
           CallLinkedin (PyStr (linkedin_email f)) (PyStr (linkedin_password f))]
            ++ rest)%list.
Proof.
  intros Hsec r. subst r.
  assert (Hfrom : from_secrets (secrets env)
                  = Some (PyStr (linkedin_email f), PyStr (linkedin_password f))).
  { rewrite Hsec. reflexivity. }
  pose proof (credentials_from_secrets env s _ Hfrom) as Hc.
  rewrite (scrape_profile_run env id s _) by (rewrite Hc; reflexivity).
  rewrite Hc. cbv zeta. cbn [out session trace fst snd].
  destruct (wrapped_fetch env (PyStr (linkedin_email f))
              (PyStr (linkedin_password f)) id s) as [[rest T] Ho].
  cbv zeta in T, Ho. repeat split.
  - destruct (out (fetch_and_normalize env _ _ id s)); rewrite Ho; discriminate.
  - rewrite none_of_app. cbn [none_of forallb environment_event negb andb].
    apply (inert_try environment_event); [|intros e; apply inert_raise].
    now apply inert_fetch_and_normalize.
  - exists rest. rewrite T. reflexivity.
Qed.

End MoreProperties.

(** X19. A save that goes through replaces the whole secrets file: the
    table on disk has the two LinkedIn keys, with the strings of the
    two fields, and no other key, whatever the file held before. *)
Theorem settings_save_replaces_file (f : settings_form) (d : Disk) (k : string) :
  save_pressed f = true ->
  write_failure d = None ->
  exists table,
    secrets_toml (fst (settings_tab f d)) = Some table
    /\ snd (settings_tab f d) = [StSuccess "Settings saved successfully!"]
    /\ Py.lookup "LINKEDIN_EMAIL" table = Some (PyStr (linkedin_email f))
    /\ Py.lookup "LINKEDIN_PASSWORD" table = Some (PyStr (linkedin_password f))
    /\ (k <> "LINKEDIN_EMAIL" -> k <> "LINKEDIN_PASSWORD" ->
        Py.lookup k table = None).
Proof.
  intros Hp Hw. unfold settings_tab, save_secrets. rewrite Hp, Hw.
  exists (new_secrets f). repeat split.
  intros H1 H2. cbn [new_secrets Py.lookup].
  apply String.eqb_neq in H1, H2. now rewrite H1, H2.
Qed.

(* ================================================================== *)
(** * The further properties on concrete inputs *)

(** X20. As soon as the handler has a persona it hands the job URL of
    the form to the posting scraper, whatever that string is: neither
    the verdict of the validator nor (on the manual tab) emptiness
    holds the call back. *)
Theorem job_url_fetched_as_typed (env : Env) (i : inputs) (s : dict)
        (user : UserPersona) :
  out (build_user env i s) = Val user ->
  In (CallScrapeJobPosting (Form.job_url i)) (trace (generate env i s)).
Proof. apply posting_fetched_unchecked. Qed.

Lemma job_url_fetched_as_typed_witness :
  In (CallScrapeJobPosting "not a url")
     (trace (generate (Stub.world [] Stub.no_env)
               (Stub.manual_form "not a url" "Jane Doe" "Engineer at Acme")
               Stub.fresh)).
Proof.
  apply (job_url_fetched_as_typed (Stub.world [] Stub.no_env)
           (Stub.manual_form "not a url" "Jane Doe" "Engineer at Acme")
           Stub.fresh
           (mkUserPersona (PyStr "Jane Doe") (PyStr "PhD in Engineering")
              (PyStr "Engineer at Acme")
              (PyList [PyStr "Python"; PyStr "Rust"])
              (PyList [PyStr "AWS"]))).
  reflexivity.
Defined.

Lemma no_editor_without_letter_witness :
  none_of editor_event
    (trace (main (Stub.world [] Stub.no_env)
              (Stub.manual_form "https://www.linkedin.com/jobs/view/3544765357/"
                 "Jane Doe" "Engineer at Acme") []))
  = true.
Proof.
  apply (no_editor_without_letter (Stub.world [] Stub.no_env)
           (Stub.manual_form "https://www.linkedin.com/jobs/view/3544765357/"
              "Jane Doe" "Engineer at Acme") []).
  reflexivity.
Defined.

Lemma generate_success_witness :
  generate (Stub.world Stub.saved_secrets Stub.no_env) Sample.jane_form Stub.fresh
  = Run Halt
      (Py.store "editor_active" (PyBool true)
         (Py.store "cover_letter" Stub.letter Stub.fresh))
      (Sample.jane_scraped
         ++ [CallScrapeJobPosting "https://www.linkedin.com/jobs/view/3544765357/";
             CallQuery Sample.jane
               (PyStr "posting at https://www.linkedin.com/jobs/view/3544765357/")
               template_path;
             ShowSuccess "Your cover letter is ready!";
             ShowLetter "Dear Hiring Manager...";
             ShowDownload (PyStr "Dear Hiring Manager...") (Some "download_button1");
             StRerun])%list.
Proof.
  apply (generate_success (Stub.world Stub.saved_secrets Stub.no_env)
           Sample.jane_form Stub.fresh Sample.jane
           (PyStr "posting at https://www.linkedin.com/jobs/view/3544765357/")
           Stub.letter "Dear Hiring Manager...").
  - reflexivity.
  - reflexivity.
  - reflexivity.
  - reflexivity.
Defined.

Lemma generate_stores_before_reading_witness :
  generate Sample.textless_backend
    (Stub.manual_form "https://www.linkedin.com/jobs/view/3544765357/"
       "Jane Doe" "Engineer at Acme") Stub.fresh
  = Run (Val tt) Sample.textless_session
      [CallScrapeJobPosting "https://www.linkedin.com/jobs/view/3544765357/";
       CallQuery
         (mkUserPersona (PyStr "Jane Doe") (PyStr "PhD in Engineering")
            (PyStr "Engineer at Acme")
            (PyList [PyStr "Python"; PyStr "Rust"])
            (PyList [PyStr "AWS"]))
         (PyStr "posting at https://www.linkedin.com/jobs/view/3544765357/")
         template_path;
       ShowSuccess "Your cover letter is ready!";
       StError "An error occurred: 'text'"].
Proof.
  apply (generate_stores_before_reading Sample.textless_backend
           (Stub.manual_form "https://www.linkedin.com/jobs/view/3544765357/"
              "Jane Doe" "Engineer at Acme") Stub.fresh
           (mkUserPersona (PyStr "Jane Doe") (PyStr "PhD in Engineering")
              (PyStr "Engineer at Acme")
              (PyList [PyStr "Python"; PyStr "Rust"])
              (PyList [PyStr "AWS"]))
           (PyStr "posting at https://www.linkedin.com/jobs/view/3544765357/")
           (PyDict [("error", PyStr "quota exceeded")])
           (Py.key_error "text")).
  - reflexivity.
  - reflexivity.
  - reflexivity.
  - reflexivity.
Defined.

Lemma linkedin_tab_requires_urls_witness :
  generate (Stub.world Stub.saved_secrets Stub.no_env)
    (Stub.linkedin_form "https://www.linkedin.com/jobs/view/3544765357/" EmptyString)
    Stub.fresh
  = Run Halt Stub.fresh [StError "Please enter your LinkedIn profile URL"].
Proof.
  apply (linkedin_tab_requires_urls (Stub.world Stub.saved_secrets Stub.no_env)
           (Stub.linkedin_form "https://www.linkedin.com/jobs/view/3544765357/"
              EmptyString)
           Stub.fresh).
  - reflexivity.
  - right. reflexivity.
Defined.

Lemma textless_letter_blocks_main_witness :
  main (Stub.world [] Stub.no_env)
    (Stub.manual_form "https://www.linkedin.com/jobs/view/3544765357/"
       "Jane Doe" "Engineer at Acme")
    (session (generate Sample.textless_backend
                (Stub.manual_form "https://www.linkedin.com/jobs/view/3544765357/"
                   "Jane Doe" "Engineer at Acme") Stub.fresh))
  = Run (Raise (Py.key_error "text")) Sample.textless_session
      [ShowSuccess "Your cover letter is ready!"].
Proof.
  apply (textless_letter_blocks_main (Stub.world [] Stub.no_env)
           (Stub.manual_form "https://www.linkedin.com/jobs/view/3544765357/"
              "Jane Doe" "Engineer at Acme")
           Sample.textless_session
           (PyDict [("error", PyStr "quota exceeded")])
           (Py.key_error "text")).
  - reflexivity.
  - discriminate.
  - reflexivity.
Defined.

Lemma unreadable_profile_fails_scrape_witness :
  out (scrape_profile (Sample.world_with_api Sample.empty_profile_api)
         "janedoe" Stub.fresh)
  = Raise (Exn Exception_ "Failed to scrape LinkedIn profile: 'firstName'")
  /\ session (scrape_profile (Sample.world_with_api Sample.empty_profile_api)
                "janedoe" Stub.fresh)
     = Stub.fresh
  /\ none_of skills_event
       (trace (scrape_profile (Sample.world_with_api Sample.empty_profile_api)
                 "janedoe" Stub.fresh))
     = true.
Proof.
  apply (unreadable_profile_fails_scrape
           (Sample.world_with_api Sample.empty_profile_api) "janedoe" Stub.fresh
           (PyStr "doe@example.com") (PyStr "s3cret")
           Sample.empty_profile_api (PyDict []) (Py.key_error "firstName")).
  - reflexivity.
  - reflexivity.
  - reflexivity.
  - reflexivity.
Defined.

Lemma education_entry_succeeds_iff_witness :
  exists str,
    education_entry (Stub.world [] Stub.no_env)
      (PyDict [("schoolName", PyStr "Liceo Dini");
               ("timePeriod",
                 PyDict [("startDate", PyDict [("year", PyInt 2010)])])])
    = inr (PyStr str).
Proof.
  apply (proj1 (education_entry_succeeds_iff (Stub.world [] Stub.no_env)
                  (PyDict [("schoolName", PyStr "Liceo Dini");
                           ("timePeriod",
                             PyDict [("startDate",
                                      PyDict [("year", PyInt 2010)])])]))).
  reflexivity.
Defined.

Lemma incomplete_education_fails_scrape_witness :
  (exists e,
      comprehension
        (education_entry (Sample.world_with_api Sample.undated_profile_api))
        [PyDict [("schoolName", PyStr "University of Pisa");
                 ("timePeriod",
                   PyDict [("startDate", PyDict [("year", PyInt 2015)])])];
         PyDict [("schoolName", PyStr "Liceo Dini")]]
      = inl e
      /\ out (scrape_profile (Sample.world_with_api Sample.undated_profile_api)
                "janedoe" Stub.fresh)
         = Raise (Exn Exception_ (scrape_prefix ++ exn_msg e)))
  /\ session (scrape_profile (Sample.world_with_api Sample.undated_profile_api)
                "janedoe" Stub.fresh)
     = Stub.fresh
  /\ none_of skills_event
       (trace (scrape_profile (Sample.world_with_api Sample.undated_profile_api)
                 "janedoe" Stub.fresh))
     = true.
Proof.
  apply (incomplete_education_fails_scrape
           (Sample.world_with_api Sample.undated_profile_api) "janedoe" Stub.fresh
           (PyStr "doe@example.com") (PyStr "s3cret")
           Sample.undated_profile_api Sample.undated_profile
           (PyStr "Jane") (PyStr "Doe")).
  - reflexivity.
  - reflexivity.
  - reflexivity.
  - reflexivity.
  - reflexivity.
  - reflexivity.
  - reflexivity.
Defined.

Lemma scraped_persona_fields_witness :
  exists email pwd api profile raw first last,
    resolve_credentials (Stub.world Stub.saved_secrets Stub.no_env)
    = Some (email, pwd)
    /\ Linkedin (Stub.world Stub.saved_secrets Stub.no_env) email pwd = inr api
    /\ get_profile api "janedoe" = inr profile
    /\ get_profile_skills api "janedoe" = inr raw
    /\ Py.subscript profile "firstName" = inr first
    /\ Py.subscript profile "lastName" = inr last
    /\ PyStr "Jane Doe"
       = PyStr (fmt (Stub.world Stub.saved_secrets Stub.no_env) first
                  ++ " " ++ fmt (Stub.world Stub.saved_secrets Stub.no_env) last)
    /\ (exists entries xs,
           entries_of profile "experience" = inr entries
           /\ PyList [PyStr "Engineer at Acme - built X"] = PyList xs
           /\ Forall2
                (fun x y =>
                   experience_entry (Stub.world Stub.saved_secrets Stub.no_env) x
                   = inr y) entries xs)
    /\ (exists entries xs,
           entries_of profile "certifications" = inr entries
           /\ PyList [] = PyList xs
           /\ Forall2
                (fun x y =>
                   certification_entry (Stub.world Stub.saved_secrets Stub.no_env) x
                   = inr y) entries xs)
    /\ (exists items xs,
           Py.iterate raw = inr items
           /\ PyList [PyStr "Python"] = PyList xs
           /\ Forall2 (fun x y => Py.subscript x "name" = inr y) items xs).
Proof.
  apply (scraped_persona_fields (Stub.world Stub.saved_secrets Stub.no_env)
           "janedoe" Stub.fresh
           (mkUserPersona (PyStr "Jane Doe")
              (PyList [PyStr "University of Pisa (2015) - Computer Science";
                       PyStr "Liceo Dini (2010) - No description available"])
              (PyList [PyStr "Engineer at Acme - built X"])
              (PyList [PyStr "Python"])
              (PyList []))).
  reflexivity.
Defined.

Lemma editor_keeps_the_rest_witness :
  ("model" <> "cover_letter" ->
   Py.lookup "model"
     (session (editor_tab (Stub.editing "Dear Ms Rossi,") (Stub.with_text "Dear Sir,")))
   = Py.lookup "model" (Stub.with_text "Dear Sir,"))
  /\ ("model" <> "text" ->
      exists letter',
        Py.lookup "cover_letter"
          (session (editor_tab (Stub.editing "Dear Ms Rossi,")
                      (Stub.with_text "Dear Sir,")))
        = Some (PyDict letter')
        /\ Py.lookup "model" letter'
           = Py.lookup "model" [("text", PyStr "Dear Sir,"); ("model", PyStr "gpt")]).
Proof.
  apply (editor_keeps_the_rest (Stub.editing "Dear Ms Rossi,")
           (Stub.with_text "Dear Sir,")
           [("text", PyStr "Dear Sir,"); ("model", PyStr "gpt")]
           "Dear Sir," "Dear Ms Rossi," "model").
  - reflexivity.
  - reflexivity.
  - reflexivity.
Defined.

Lemma saved_settings_are_used_witness :
  out (scrape_profile
         (Stub.world (new_secrets Sample.blank_settings) Stub.full_env)
         "janedoe" Stub.fresh)
  <> Raise missing_credentials
  /\ none_of environment_event
       (trace (scrape_profile
                 (Stub.world (new_secrets Sample.blank_settings) Stub.full_env)
                 "janedoe" Stub.fresh))
     = true
  /\ exists rest,
       trace (scrape_profile
                (Stub.world (new_secrets Sample.blank_settings) Stub.full_env)
                "janedoe" Stub.fresh)
       = ([ReadSecret "LINKEDIN_EMAIL"; ReadSecret "LINKEDIN_PASSWORD";
           CallLinkedin (PyStr EmptyString) (PyStr EmptyString)] ++ rest)%list.
Proof.
  apply (saved_settings_are_used
           (Stub.world (new_secrets Sample.blank_settings) Stub.full_env)
           Sample.blank_settings "janedoe" Stub.fresh).
  reflexivity.
Defined.

Lemma settings_save_replaces_file_witness :
  Py.lookup "OPENAI_API_KEY"
    [("OPENAI_API_KEY", PyStr "sk-123");
     ("LINKEDIN_EMAIL", PyStr "doe@example.com");
     ("LINKEDIN_PASSWORD", PyStr "s3cret")]
  = Some (PyStr "sk-123")
  /\ exists table,
       secrets_toml
         (fst (settings_tab Sample.blank_settings Sample.disk_with_backend_key))
       = Some table
       /\ snd (settings_tab Sample.blank_settings Sample.disk_with_backend_key)
          = [StSuccess "Settings saved successfully!"]
       /\ Py.lookup "LINKEDIN_EMAIL" table = Some (PyStr EmptyString)
       /\ Py.lookup "LINKEDIN_PASSWORD" table = Some (PyStr EmptyString)
       /\ ("OPENAI_API_KEY" <> "LINKEDIN_EMAIL" ->
           "OPENAI_API_KEY" <> "LINKEDIN_PASSWORD" ->
           Py.lookup "OPENAI_API_KEY" table = None).
Proof.
  split; [reflexivity|].
  apply (settings_save_replaces_file Sample.blank_settings
           Sample.disk_with_backend_key "OPENAI_API_KEY").
  - reflexivity.
  - reflexivity.
Defined.

Lemma generate_text_not_a_string_witness :
  exists msg,
    generate Sample.numeric_backend Sample.jane_form Stub.fresh
    = Run (Val tt)
        (Py.store "editor_active" (PyBool true)
           (Py.store "cover_letter" (PyDict [("text", PyInt 5)]) Stub.fresh))
        (Sample.jane_scraped
           ++ [CallScrapeJobPosting "https://www.linkedin.com/jobs/view/3544765357/";
               CallQuery Sample.jane
                 (PyStr "posting at https://www.linkedin.com/jobs/view/3544765357/")
                 template_path;
               ShowSuccess "Your cover letter is ready!";
               ShowLetter "5";
               StError ("An error occurred: " ++ msg)])%list.
Proof.
  apply (generate_text_not_a_string Sample.numeric_backend Sample.jane_form
           Stub.fresh Sample.jane
           (PyStr "posting at https://www.linkedin.com/jobs/view/3544765357/")
           (PyDict [("text", PyInt 5)]) (PyInt 5)).
  - reflexivity.
  - reflexivity.
  - reflexivity.
  - reflexivity.
  - intros t. discriminate.
Defined.
